(** * newznab_mock: the request handlers of the mock Newznab indexer

    A shallow embedding of [newznab_mock.py] and the properties of its
    handlers.

    Conventions of the model.
    - A Python [str] is a [string]; one [ascii] is one character, so the
      characters of the model are the code points below 256.  Encoding to
      UTF-8 ([MD5.utf8]) turns a character above 127 into two bytes.
    - [request.args] is the decoded multi-dict of the query string, in the
      order of the URL: an association list, of which [get] reads the first
      value of a key.
    - The lxml element tree is a tree of [Xml.elem]; building an element
      always succeeds (what lxml does with characters that XML cannot
      carry is outside the model) and a response keeps the tree it
      serialises.
    - The clock and the file system are arguments of the handlers.
    - An exception that leaves a handler is the [Raise] outcome of the
      [result] monad. *)

From Stdlib Require Import ZArith Ascii String List Bool Lia DecimalString.
From Stdlib Require DecimalPos.
From stdpp Require Import base list strings gmap.

Local Open Scope Z_scope.

(* stdpp blocks [simpl] on string concatenation; the proofs below compute
   with it. *)
Local Arguments String.append !_ _ / : simpl nomatch.

(** ** Python built-ins used by the program *)

Module Py.

Definition ord (c : ascii) : Z := Z.of_N (N_of_ascii c).
Definition chr (n : Z) : ascii := ascii_of_N (Z.to_N n).

Definition between (lo hi n : Z) : bool := (lo <=? n) && (n <=? hi).

(** Truth value of a [str]: false exactly for the empty string. *)
Definition truthy (s : string) : bool :=
  match s with EmptyString => false | String _ _ => true end.

(** [str.isspace] of one character: the separators of [str.split()]. *)
Definition isspace (c : ascii) : bool :=
  let n := ord c in
  between 9 13 n || between 28 32 n || (n =? 133) || (n =? 160).

(** [str.lower]: A-Z and the upper-case letters of Latin-1. *)
Definition lower_char (c : ascii) : ascii :=
  let n := ord c in
  if between 65 90 n || (between 192 222 n && negb (n =? 215))
  then chr (n + 32) else c.

Fixpoint lower (s : string) : string :=
  match s with
  | EmptyString => EmptyString
  | String c s' => String (lower_char c) (lower s')
  end.

Definition snoc (s : string) (c : ascii) : string := s +:+ String c EmptyString.

(** [s.split()]: split on runs of white space, no empty piece. *)
Fixpoint split_aux (s tok : string) : list string :=
  match s with
  | EmptyString => if truthy tok then [tok] else []
  | String c s' =>
      if isspace c
      then (if truthy tok then tok :: split_aux s' EmptyString
            else split_aux s' EmptyString)
      else split_aux s' (snoc tok c)
  end.
Definition split (s : string) : list string := split_aux s EmptyString.

(** [s.split(sep)] for a separator of one character: every occurrence
    cuts, empty pieces are kept. *)
Fixpoint split_on_aux (sep : ascii) (s tok : string) : list string :=
  match s with
  | EmptyString => [tok]
  | String c s' =>
      if Ascii.eqb c sep then tok :: split_on_aux sep s' EmptyString
      else split_on_aux sep s' (snoc tok c)
  end.
Definition split_on (sep : ascii) (s : string) : list string :=
  split_on_aux sep s EmptyString.

Fixpoint startswith (p s : string) : bool :=
  match p, s with
  | EmptyString, _ => true
  | String a p', String b s' => Ascii.eqb a b && startswith p' s'
  | String _ _, EmptyString => false
  end.

Fixpoint endswith_char (c : ascii) (s : string) : bool :=
  match s with
  | EmptyString => false
  | String a EmptyString => Ascii.eqb a c
  | String _ s' => endswith_char c s'
  end.

(** [sub in s] on strings. *)
Fixpoint contains (sub s : string) : bool :=
  startswith sub s ||
  match s with
  | EmptyString => false
  | String _ s' => contains sub s'
  end.

(** [x in l] on a list of strings. *)
Definition mem (x : string) (l : list string) : bool :=
  existsb (String.eqb x) l.

(** [s.replace(old, new)]: every occurrence, left to right, without
    overlap.  [skip] counts the characters of a match still to drop. *)
Fixpoint replace_aux (old new s : string) (skip : nat) : string :=
  match s with
  | EmptyString => EmptyString
  | String c s' =>
      match skip with
      | S k => replace_aux old new s' k
      | O =>
          if startswith old s
          then new +:+ replace_aux old new s' (Nat.pred (String.length old))
          else String c (replace_aux old new s' O)
      end
  end.
Fixpoint intersperse (new s : string) : string :=
  match s with
  | EmptyString => new
  | String c s' => new +:+ String c (intersperse new s')
  end.
Definition replace (old new s : string) : string :=
  if truthy old then replace_aux old new s O else intersperse new s.

(** [str(n)] of an integer. *)
Definition str (n : Z) : string := NilZero.string_of_int (Z.to_int n).

(** [int(s)], base 10: white space around, one sign, digits with single
    underscores between them; [None] is [ValueError]. *)
Definition int_space (c : ascii) : bool :=
  let n := ord c in between 9 13 n || (n =? 32) || (n =? 133) || (n =? 160).

Fixpoint lstrip (s : string) : string :=
  match s with
  | EmptyString => EmptyString
  | String c s' => if int_space c then lstrip s' else s
  end.
Fixpoint rstrip (s : string) : string :=
  match s with
  | EmptyString => EmptyString
  | String c s' =>
      let r := rstrip s' in
      if negb (truthy r) && int_space c then EmptyString else String c r
  end.
Definition strip (s : string) : string := rstrip (lstrip s).

Definition digit (c : ascii) : option Z :=
  let n := ord c in if between 48 57 n then Some (n - 48) else None.

Fixpoint digits (s : string) (acc count : Z) (after_digit : bool)
  : option (Z * Z) :=
  match s with
  | EmptyString => if after_digit then Some (acc, count) else None
  | String c s' =>
      match digit c with
      | Some d => digits s' (10 * acc + d) (count + 1) true
      | None =>
          if Ascii.eqb c "_" && after_digit
          then digits s' acc count false
          else None
      end
  end.

(** CPython refuses literals of more than this many digits. *)
Definition max_str_digits : Z := 4300.

Definition unsigned (s : string) : option Z :=
  match digits s 0 0 false with
  | Some (v, count) => if count <=? max_str_digits then Some v else None
  | None => None
  end.

Definition int (s : string) : option Z :=
  match strip s with
  | String "+" r => unsigned r
  | String "-" r => option_map Z.opp (unsigned r)
  | t => unsigned t
  end.

(** [divmod(a, 1000)]: floor division, remainder in [0, 1000). *)
Definition divmod (a b : Z) : Z * Z := (a / b, a mod b).

(** [l[start:stop]] with Python's treatment of negative and
    out-of-range bounds. *)
Definition slice_index (n i : Z) : Z :=
  if i <? 0 then Z.max 0 (i + n) else Z.min i n.
Definition slice {A} (l : list A) (start stop : Z) : list A :=
  let n := Z.of_nat (length l) in
  let a := slice_index n start in
  let b := slice_index n stop in
  firstn (Z.to_nat (b - a)) (skipn (Z.to_nat a) l).

(** [posixpath.join] of two components. *)
Definition path_join (a b : string) : string :=
  if startswith "/" b then b
  else if negb (truthy a) || endswith_char "/" a then a +:+ b
  else a +:+ "/" +:+ b.

End Py.

(** ** MD5 (RFC 1321), as [hashlib.md5(...).hexdigest()] computes it *)

Module MD5.

Definition W : Z := 2 ^ 32.
Definition add32 (a b : Z) : Z := (a + b) mod W.
Definition not32 (a : Z) : Z := Z.lxor a (W - 1).
Definition rotl32 (x c : Z) : Z :=
  Z.lor (Z.shiftl x c mod W) (Z.shiftr x (32 - c)).

Definition S_table : list Z :=
  [7; 12; 17; 22; 7; 12; 17; 22; 7; 12; 17; 22; 7; 12; 17; 22;
   5; 9; 14; 20; 5; 9; 14; 20; 5; 9; 14; 20; 5; 9; 14; 20;
   4; 11; 16; 23; 4; 11; 16; 23; 4; 11; 16; 23; 4; 11; 16; 23;
   6; 10; 15; 21; 6; 10; 15; 21; 6; 10; 15; 21; 6; 10; 15; 21].

Definition K_table : list Z :=
  [0xd76aa478; 0xe8c7b756; 0x242070db; 0xc1bdceee;
   0xf57c0faf; 0x4787c62a; 0xa8304613; 0xfd469501;
   0x698098d8; 0x8b44f7af; 0xffff5bb1; 0x895cd7be;
   0x6b901122; 0xfd987193; 0xa679438e; 0x49b40821;
   0xf61e2562; 0xc040b340; 0x265e5a51; 0xe9b6c7aa;
   0xd62f105d; 0x02441453; 0xd8a1e681; 0xe7d3fbc8;
   0x21e1cde6; 0xc33707d6; 0xf4d50d87; 0x455a14ed;
   0xa9e3e905; 0xfcefa3f8; 0x676f02d9; 0x8d2a4c8a;
   0xfffa3942; 0x8771f681; 0x6d9d6122; 0xfde5380c;
   0xa4beea44; 0x4bdecfa9; 0xf6bb4b60; 0xbebfbc70;
   0x289b7ec6; 0xeaa127fa; 0xd4ef3085; 0x04881d05;
   0xd9d4d039; 0xe6db99e5; 0x1fa27cf8; 0xc4ac5665;
   0xf4292244; 0x432aff97; 0xab9423a7; 0xfc93a039;
   0x655b59c3; 0x8f0ccc92; 0xffeff47d; 0x85845dd1;
   0x6fa87e4f; 0xfe2ce6e0; 0xa3014314; 0x4e0811a1;
   0xf7537e82; 0xbd3af235; 0x2ad7d2bb; 0xeb86d391].

(** [str.encode('utf-8')] on code points below 256. *)
Fixpoint utf8 (s : string) : list Z :=
  match s with
  | EmptyString => []
  | String c s' =>
      let n := Py.ord c in
      if n <? 128 then n :: utf8 s'
      else (192 + n / 64) :: (128 + n mod 64) :: utf8 s'
  end.

(** Little-endian bytes of [n], [k] of them. *)
Fixpoint le_bytes (k : nat) (n : Z) : list Z :=
  match k with
  | O => []
  | S k' => (n mod 256) :: le_bytes k' (n / 256)
  end.

Definition pad (msg : list Z) : list Z :=
  let len := Z.of_nat (length msg) in
  let zeros := Z.to_nat ((55 - len) mod 64) in
  msg ++ [128] ++ List.repeat 0 zeros ++ le_bytes 8 ((8 * len) mod 2 ^ 64).

(** The sixteen little-endian words of a block of 64 bytes. *)
Fixpoint words (k : nat) (bs : list Z) : list Z :=
  match k, bs with
  | S k', b0 :: b1 :: b2 :: b3 :: rest =>
      (b0 + 256 * b1 + 65536 * b2 + 16777216 * b3) :: words k' rest
  | _, _ => []
  end.

Definition state : Type := Z * Z * Z * Z.

Definition round (M : list Z) (st : state) (i : nat) : state :=
  let '(A, B, C, D) := st in
  let iz := Z.of_nat i in
  let '(F, g) :=
    if iz <? 16 then (Z.lor (Z.land B C) (Z.land (not32 B) D), iz)
    else if iz <? 32 then
      (Z.lor (Z.land D B) (Z.land (not32 D) C), (5 * iz + 1) mod 16)
    else if iz <? 48 then (Z.lxor B (Z.lxor C D), (3 * iz + 5) mod 16)
    else (Z.lxor C (Z.lor B (not32 D)), (7 * iz) mod 16) in
  let F' := add32 (add32 (add32 F A) (nth i K_table 0))
                  (nth (Z.to_nat g) M 0) in
  (D, add32 B (rotl32 F' (nth i S_table 0)), B, C).

Definition compress (st : state) (block : list Z) : state :=
  let M := words 16 block in
  let '(A, B, C, D) := fold_left (round M) (seq 0 64) st in
  let '(a0, b0, c0, d0) := st in
  (add32 a0 A, add32 b0 B, add32 c0 C, add32 d0 D).

Fixpoint blocks (n : nat) (st : state) (bs : list Z) : state :=
  match n with
  | O => st
  | S n' => blocks n' (compress st (firstn 64 bs)) (skipn 64 bs)
  end.

Definition init : state := (0x67452301, 0xefcdab89, 0x98badcfe, 0x10325476).

Definition digest (msg : list Z) : list Z :=
  let p := pad msg in
  let '(A, B, C, D) := blocks (length p / 64)%nat init p in
  le_bytes 4 A ++ le_bytes 4 B ++ le_bytes 4 C ++ le_bytes 4 D.

Definition hex_digit (n : Z) : ascii :=
  if n <? 10 then Py.chr (48 + n) else Py.chr (87 + n).

Fixpoint hex (bs : list Z) : string :=
  match bs with
  | [] => EmptyString
  | b :: bs' => String (hex_digit (b / 16)) (String (hex_digit (b mod 16)) (hex bs'))
  end.

Definition hexdigest (msg : list Z) : string := hex (digest msg).

End MD5.


(** ** The lxml element tree *)

Module Xml.

(** An element: tag (namespaced tags in Clark notation), namespace map,
    attributes in the order they were given, text, children in order. *)
#[warnings="-register-all"] Inductive elem : Type :=
  Elem (tag : string) (nsmap attrib : list (string * string))
       (text : option string) (children : list elem).

Definition tag (e : elem) : string := let 'Elem t _ _ _ _ := e in t.
Definition attrib (e : elem) : list (string * string) :=
  let 'Elem _ _ a _ _ := e in a.
Definition text (e : elem) : option string := let 'Elem _ _ _ x _ := e in x.
Definition children (e : elem) : list elem := let 'Elem _ _ _ _ c := e in c.

(** First value of a key in an association list. *)
Fixpoint assoc (k : string) (l : list (string * string)) : option string :=
  match l with
  | [] => None
  | (k', v) :: l' => if String.eqb k' k then Some v else assoc k l'
  end.

(** [e.get(name)], [e.findall(tag)], [e.find(tag)]. *)
Definition get (e : elem) (name : string) : option string :=
  assoc name (attrib e).
Definition findall (e : elem) (t : string) : list elem :=
  List.filter (fun c => String.eqb (tag c) t) (children e).
Definition find (e : elem) (t : string) : option elem := head (findall e t).

Definition leaf (t : string) (txt : string) : elem :=
  Elem t [] [] (Some txt) [].

End Xml.

(** ** Outcomes: a value, or an exception that leaves the function *)

Inductive exn : Type :=
  | ValueError (literal : string).   (* int() on a literal it rejects *)

Inductive result (A : Type) : Type :=
  | Return (a : A)
  | Raise (e : exn).
Arguments Return {A} a.
Arguments Raise {A} e.

Global Instance result_ret : MRet result := fun A a => Return a.
Global Instance result_bind : MBind result := fun A B f m =>
  match m with
  | Return a => f a
  | Raise e => Raise e
  end.

(** ** Data: catalog entries, configuration, request, file system *)

Module Item.
(** The [categories] field of an entry as the JSON has it: a list, or a
    single value. *)
Inductive cats : Type :=
  | CatList (l : list string)
  | CatScalar (c : string).

(** One entry of the catalog; a field is [None] when its key is absent. *)
Record item : Type := Build {
  title : option string;
  filename : option string;
  categories : option cats;
  size : option Z;
  group : option string
}.
End Item.
Abbreviation item := Item.item.

Record config : Type := Config {
  api_key : string;
  nzb_path : string;
  nzbs_data : list item;
  external_url : string;
  categories : gmap string string
}.

(** [request.args]. *)
Definition args : Type := list (string * string).

(** The file system as the retrieval handler sees it; [IoError] carries
    [str(e)] of the exception. *)
Inductive io (A : Type) : Type :=
  | IoOk (a : A)
  | IoError (msg : string).
Arguments IoOk {A} a.
Arguments IoError {A} msg.

Record filesystem : Type := FileSystem {
  isfile : string -> bool;        (* os.path.isfile *)
  read_text : string -> io string; (* open(path, 'r') and f.read() *)
  send_file : string -> io unit    (* flask.send_file *)
}.

(** What a view function hands back to Flask. *)
Inductive response : Type :=
  | XmlResponse (doc : Xml.elem)
      (* Response(xml_str, mimetype='application/xml') *)
  | FileResponse (path download_name mimetype : string).
      (* send_file(path, as_attachment=True, download_name, mimetype) *)

(** ** The program *)

(** [request.args.get(key)] *)
Definition args_get (a : args) (key : string) : option string :=
  Xml.assoc key a.

(** [item.get("categories", [])], wrapped in a list when it is not one. *)
Definition item_categories (it : item) : list string :=
  match Item.categories it with
  | None => []
  | Some (Item.CatList l) => l
  | Some (Item.CatScalar c) => [c]
  end.

(** [item.get('filename', '')] *)
Definition item_filename (it : item) : string :=
  default "" (Item.filename it).

Definition get_category_name (cfg : config) (category_id : string) : string :=
  default ("Category " +:+ category_id) (categories cfg !! category_id).

(** [int(i)] inside a handler. *)
Definition int_of (s : string) : result Z :=
  match Py.int s with
  | Some n => Return n
  | None => Raise (ValueError s)
  end.

(** The comprehension
    [[str(1000*divmod(int(i),1000)[0]) for i in categories
      if divmod(int(i),1000)[1] > 0]]. *)
Fixpoint child_parents (cats : list string) : result (list string) :=
  match cats with
  | [] => Return []
  | i :: rest =>
      n ← int_of i;
      ps ← child_parents rest;
      Return (if 0 <? snd (Py.divmod n 1000)
              then Py.str (1000 * fst (Py.divmod n 1000)) :: ps
              else ps)
  end.

Definition get_named_categories (cfg : config) (cats : list string)
  : result (list string) :=
  ps ← child_parents cats;
  Return (fold_left
            (fun named_categories category =>
               if negb (Py.mem category ps)
               then named_categories ++ [get_category_name cfg category]
               else named_categories)
            cats []).

Definition verify_api_key (cfg : config) (a : args) : bool :=
  match args_get a "apikey" with
  | None => false
  | Some key =>
      if negb (Py.truthy key) || negb (String.eqb key (api_key cfg))
      then false else true
  end.

Definition error_response (code : Z) (message : string) : response :=
  XmlResponse
    (Xml.Elem "error" [] [("code", Py.str code); ("description", message)]
              None []).

Definition get_guid_from_filename (filename : string) : string :=
  MD5.hexdigest (MD5.utf8 filename).

Definition atom_ns : string := "http://www.w3.org/2005/Atom".
Definition newznab_ns : string :=
  "http://www.newznab.com/DTD/2010/feeds/attributes/".
Definition qname (ns local : string) : string := "{" +:+ ns +:+ "}" +:+ local.

Definition newznab_attr (name value : string) : Xml.elem :=
  Xml.Elem (qname newznab_ns "attr") [] [("name", name); ("value", value)]
           None [].

(** [build_item_xml]: the [item] element appended to the channel;
    [current_time] is the clock as this call reads it. *)
Definition build_item_xml (cfg : config) (current_time : string) (it : item)
  : result Xml.elem :=
  let cats := item_categories it in
  let filename := item_filename it in
  let guid := get_guid_from_filename filename in
  let details := external_url cfg +:+ "/details/" +:+ guid in
  let link := external_url cfg +:+ "/api?t=get&id=" +:+ guid
              +:+ "&apikey=" +:+ api_key cfg in
  let size := Py.str (default 0 (Item.size it)) in
  named ← get_named_categories cfg cats;
  Return
    (Xml.Elem "item" [] [] None
       ([Xml.leaf "title" (default "Unknown" (Item.title it));
         Xml.Elem "guid" [] [("isPermaLink", "true")] (Some details) [];
         Xml.leaf "link" link;
         Xml.leaf "comments" details;
         Xml.leaf "pubDate" current_time]
        ++ map (Xml.leaf "category") named
        ++ [Xml.Elem "enclosure" []
              [("url", link); ("length", size); ("type", "application/x-nzb")]
              None []]
        ++ map (newznab_attr "category") cats
        ++ [newznab_attr "size" size;
            newznab_attr "guid" guid;
            newznab_attr "group"
              (default "alt.binaries" (Item.group it))])).

(** [re.sub] of the class of [, . ! ? ; :], the double quote (034), the
    single quote and [-] by a space. *)
Definition punctuation : list ascii :=
  [","; "."; "!"; "?"; ";"; ":"; "034"; "'"; "-"]%char.
Definition is_punctuation (c : ascii) : bool :=
  existsb (Ascii.eqb c) punctuation.
Fixpoint clean (query : string) : string :=
  match query with
  | EmptyString => EmptyString
  | String c q' => String (if is_punctuation c then " "%char else c) (clean q')
  end.

(** The tokens of the query text. *)
Definition query_terms (query : string) : list string :=
  if Py.truthy query
  then map Py.lower (List.filter Py.truthy (Py.split (clean query)))
  else [].

(** The two tests of the search loop on one entry. *)
Definition text_match (terms : list string) (it : item) : bool :=
  match terms with
  | [] => true
  | _ :: _ =>
      let title := Py.lower (default "" (Item.title it)) in
      forallb (fun term => Py.contains term title) terms
  end.

Definition category_match (cat : string) (it : item) : bool :=
  if Py.truthy cat
  then
    let cat_list := Py.split_on "," cat in
    existsb (fun c => Py.mem c cat_list) (item_categories it)
  else true.

(** The loop that fills [results]. *)
Definition search_results (cfg : config) (terms : list string) (cat : string)
  : list item :=
  fold_left
    (fun results it =>
       let match1 := text_match terms it in
       let match2 := if category_match cat it then match1 else false in
       if match2 then results ++ [it] else results)
    (nzbs_data cfg) [].

Definition response_element (offset : Z) (results : list item) : Xml.elem :=
  Xml.Elem (qname newznab_ns "response") []
    [("offset", Py.str offset);
     ("total", Py.str (Z.of_nat (length results)))] None [].

(** The document of a search, around the rendered [items]. *)
Definition search_document (cfg : config) (offset : Z) (results : list item)
    (items : list Xml.elem) : Xml.elem :=
  Xml.Elem "rss" [("atom", atom_ns); ("newznab", newznab_ns)]
    [("version", "2.0")] None
    [Xml.Elem "channel" [] [] None
       ([Xml.leaf "title" "Newznab Mock";
         Xml.leaf "description" "Newznab Mock API Results";
         Xml.leaf "link" (external_url cfg);
         Xml.leaf "language" "en-gb";
         Xml.leaf "webMaster"
           ("admin@" +:+ Py.replace "https://" ""
                           (Py.replace "http://" "" (external_url cfg)));
         Xml.leaf "category" "NZB";
         Xml.Elem (qname atom_ns "link") []
           [("href", external_url cfg +:+ "/api"); ("rel", "self");
            ("type", "application/rss+xml")] None [];
         response_element offset results]
        ++ items)].

(** [for item in paginated_results: build_item_xml(item, channel)]; the
    [k]-th call reads the clock as [clock k]. *)
Fixpoint build_items (cfg : config) (clock : nat -> string) (k : nat)
    (page : list item) : result (list Xml.elem) :=
  match page with
  | [] => Return []
  | it :: rest =>
      e ← build_item_xml cfg (clock k) it;
      es ← build_items cfg clock (S k) rest;
      Return (e :: es)
  end.

(** [int(request.args.get(key, default))] *)
Definition int_arg (a : args) (key : string) (dflt : Z) : result Z :=
  match args_get a key with
  | Some s => int_of s
  | None => Return dflt
  end.

Definition paginate (results : list item) (offset limit : Z) : list item :=
  Py.slice results offset (offset + limit).

Definition handle_search (cfg : config) (clock : nat -> string) (a : args)
  : result response :=
  let query := default "" (args_get a "q") in
  let cat := default "" (args_get a "cat") in
  limit ← int_arg a "limit" 100;
  offset ← int_arg a "offset" 0;
  let results := search_results cfg (query_terms query) cat in
  let paginated_results := paginate results offset limit in
  items ← build_items cfg clock 0 paginated_results;
  Return (XmlResponse (search_document cfg offset results items)).

(** The scan of [handle_get]: the filename of the first entry whose
    identifier equals [nzb_id]; [None] is Python's [None]. *)
Fixpoint find_filename (items : list item) (nzb_id : string) : option string :=
  match items with
  | [] => None
  | it :: rest =>
      let filename := item_filename it in
      if String.eqb (get_guid_from_filename filename) nzb_id
      then Some filename
      else find_filename rest nzb_id
  end.

(** Truth value of [nzb_filename]: [None] and the empty string are false. *)
Definition truthy_opt (o : option string) : bool :=
  match o with
  | None => false
  | Some s => Py.truthy s
  end.

Definition handle_get (cfg : config) (fs : filesystem) (a : args) : response :=
  let nzb_id := default "" (args_get a "id") in
  if negb (Py.truthy nzb_id)
  then error_response 200 "No NZB ID specified"
  else
    let nzb_filename := find_filename (nzbs_data cfg) nzb_id in
    if negb (truthy_opt nzb_filename)
    then error_response 300 ("NZB with ID " +:+ nzb_id +:+ " not found")
    else
      let name := default "" nzb_filename in
      let path := Py.path_join (nzb_path cfg) name in
      if negb (isfile fs path)
      then error_response 300 ("NZB file " +:+ name +:+ " not found on disk")
      else
        match read_text fs path with
        | IoError e => error_response 900 ("Error reading NZB file: " +:+ e)
        | IoOk _ =>
            match send_file fs path with
            | IoError e =>
                error_response 900 ("Error reading NZB file: " +:+ e)
            | IoOk _ => FileResponse path name "application/x-nzb"
            end
        end.

Definition api (cfg : config) (clock : nat -> string) (fs : filesystem)
    (a : args) : result response :=
  if negb (verify_api_key cfg a)
  then Return (error_response 100 "Invalid API key")
  else
    let t := default "" (args_get a "t") in
    if String.eqb t "search" || String.eqb t "tvsearch" || String.eqb t "movie"
    then handle_search cfg clock a
    else if String.eqb t "get" then Return (handle_get cfg fs a)
    else Return (error_response 203 ("Function not available: " +:+ t)).

(** Flask around the view: a returned response is sent as it is; an
    exception that leaves the view becomes the framework's own
    "500 Internal Server Error" page. *)
Module Flask.
Inductive reply : Type :=
  | Sent (r : response)
  | InternalServerError.

Definition dispatch (r : result response) : reply :=
  match r with
  | Return resp => Sent resp
  | Raise _ => InternalServerError
  end.
End Flask.

(** ** Vocabulary of the statements *)

(** The error document of the key gate. *)
Definition invalid_api_key_document : Xml.elem :=
  Xml.Elem "error" [] [("code", "100"); ("description", "Invalid API key")]
           None [].

(** The operations that [api] hands to [handle_search]. *)
Definition is_search_op (t : string) : bool :=
  String.eqb t "search" || String.eqb t "tvsearch" || String.eqb t "movie".

(** [t] occurs in [s]. *)
Definition substring (t s : string) : Prop :=
  exists pre post, s = pre +:+ t +:+ post.

(** The characters of a string, in order. *)
Definition chars (s : string) : list ascii := list_ascii_of_string s.




(** Reading a search document back: the [item] elements of the channel,
    and the [total] attribute of the [response] element. *)
Definition rendered_items (doc : Xml.elem) : list Xml.elem :=
  match Xml.find doc "channel" with
  | Some channel => Xml.findall channel "item"
  | None => []
  end.

Definition response_total (doc : Xml.elem) : option string :=
  channel ← Xml.find doc "channel";
  r ← Xml.find channel (qname newznab_ns "response");
  Xml.get r "total".

(** The [results] of [handle_search] for a request. *)
Definition matched (cfg : config) (a : args) : list item :=
  search_results cfg (query_terms (default "" (args_get a "q")))
                 (default "" (args_get a "cat")).

(** The rest of [handle_get] once the scan gave a file name that is not
    empty: the check on disk, the read, the attachment. *)
Definition serve (cfg : config) (fs : filesystem) (name : string) : response :=
  let path := Py.path_join (nzb_path cfg) name in
  if negb (isfile fs path)
  then error_response 300 ("NZB file " +:+ name +:+ " not found on disk")
  else
    match read_text fs path, send_file fs path with
    | IoError e, _ => error_response 900 ("Error reading NZB file: " +:+ e)
    | IoOk _, IoError e => error_response 900 ("Error reading NZB file: " +:+ e)
    | IoOk _, IoOk _ => FileResponse path name "application/x-nzb"
    end.

(** The two kinds of answer of [handle_get]. *)
Definition is_file_response (r : response) : Prop :=
  exists path name, r = FileResponse path name "application/x-nzb".

Definition is_error_document (r : response) : Prop :=
  exists code message, In code [200; 300; 900] /\ r = error_response code message.

(** ** Installations for the worked examples *)

Definition entry (title filename : string) (cats : list string) (size : Z) : item :=
  Item.Build (Some title) (Some filename) (Some (Item.CatList cats)) (Some size) None.

Definition sample_catalog : list item :=
  [entry "Big Buck Bunny 1080p" "bunny.nzb" ["2000"; "2040"] 700;
   entry "Sintel.2010.WEB" "sintel.nzb" ["2000"] 500;
   entry "Ubuntu 24.04 ISO" "ubuntu.nzb" ["4000"; "4010"] 4000].

Definition sample_config : config :=
  Config "mock_api_key" "/srv/nzb" sample_catalog "http://localhost:5000"
    (list_to_map [("2000", "Movies"); ("2040", "Movies/HD"); ("4000", "PC")]).

Definition sample_clock : nat -> string :=
  fun _ => "Wed, 04 Nov 2026 10:00:00 ".

(** A directory that holds [bunny.nzb] and [sintel.nzb]; the latter cannot
    be read. *)
Definition sample_fs : filesystem :=
  FileSystem
    (fun p => String.eqb p "/srv/nzb/bunny.nzb" || String.eqb p "/srv/nzb/sintel.nzb")
    (fun p => if String.eqb p "/srv/nzb/bunny.nzb" then IoOk "<nzb/>"
              else IoError "[Errno 13] Permission denied")
    (fun _ => IoOk tt).

(** The same server started with [--api-key ''] . *)
Definition empty_key_config : config :=
  Config "" "/srv/nzb" sample_catalog "http://localhost:5000" ∅.

(** Ten matches, as in the examples of the specification. *)
Definition ten_catalog : list item :=
  map (fun k => entry ("Release " +:+ Py.str (Z.of_nat k))
                      ("r" +:+ Py.str (Z.of_nat k) +:+ ".nzb") ["2000"] 1)
      (seq 0 10).
Definition ten_config : config :=
  Config "mock_api_key" "/srv/nzb" ten_catalog "http://localhost:5000" ∅.


(** An authenticated search with a [limit] that is no number. *)
Definition bad_limit_request : args :=
  [("apikey", "mock_api_key"); ("t", "search"); ("q", "bunny"); ("limit", "ten")].

(** The identifiers of the three sample entries. *)
Definition bunny_id : string := "5be8949c020c5ad879af6200b5e386db".
Definition sintel_id : string := "3b3dfcd38eece6147afc684ed720d049".
Definition ubuntu_id : string := "40778b19a48f493d4c2d19e672b1ebf6".

(** A catalog whose only entry has the empty file name; its identifier
    is the MD5 digest of the empty string. *)
Definition nameless_config : config :=
  Config "mock_api_key" "/srv/nzb"
    [Item.Build (Some "No file yet") (Some "") (Some (Item.CatList ["2000"]))
                (Some 0) None]
    "http://localhost:5000" ∅.

Definition empty_name_id : string := "d41d8cd98f00b204e9800998ecf8427e".

(** Two file names of 72 characters with one MD5 digest, and a catalog
    that holds both. *)
Definition collide_a : string :=
  "TEXTCOLLBYfGiJUETHQ4hAcKSMd5zYpgqf1YRDhkmxHkhPWptrkoyz28wnI9V0aHeAuaKnak".
Definition collide_b : string :=
  "TEXTCOLLBYfGiJUETHQ4hEcKSMd5zYpgqf1YRDhkmxHkhPWptrkoyz28wnI9V0aHeAuaKnak".

Definition collision_config : config :=
  Config "mock_api_key" "/srv/nzb"
    [entry "First release" collide_a ["2000"] 10;
     entry "Second release" collide_b ["2000"] 20]
    "http://localhost:5000" ∅.

(** A directory in which every file is present and readable. *)
Definition full_fs : filesystem :=
  FileSystem (fun _ => true) (fun _ => IoOk "<nzb/>") (fun _ => IoOk tt).

(** ** The category table at start-up *)

(** [s.strip()]: the white space of [isspace] removed at both ends. *)
Fixpoint str_lstrip (s : string) : string :=
  match s with
  | EmptyString => EmptyString
  | String c s' => if Py.isspace c then str_lstrip s' else s
  end.

Fixpoint str_rstrip (s : string) : string :=
  match s with
  | EmptyString => EmptyString
  | String c s' =>
      let r := str_rstrip s' in
      if negb (Py.truthy r) && Py.isspace c then EmptyString else String c r
  end.

Definition str_strip (s : string) : string := str_rstrip (str_lstrip s).

(** What [load_categories] gets from [newznab_categories.csv]: nothing
    when the file does not exist, else the rows that [csv.reader] yields
    until the file ends or reading raises (the exception is caught and the
    rows read so far are kept). *)
Inductive csv_file : Type :=
  | CsvAbsent
  | CsvRows (rows : list (list string)).

(** The body of the loop over the rows. *)
Definition add_category_row (categories : gmap string string)
    (row : list string) : gmap string string :=
  match row with
  | category_id :: category_name :: _ =>
      <[str_strip category_id := str_strip category_name]> categories
  | _ => categories
  end.

(** [load_categories]: the first row is skipped as the header. *)
Definition load_categories (file : csv_file) : gmap string string :=
  match file with
  | CsvAbsent => ∅
  | CsvRows rows => fold_left add_category_row (tail rows) ∅
  end.

(** ** Reading an [item] element back *)

(** The text of the first child with tag [t]. *)
Definition child_text (e : Xml.elem) (t : string) : option string :=
  c ← Xml.find e t; Xml.text c.

(** The texts of the children with tag [t], in order. *)
Definition child_texts (e : Xml.elem) (t : string) : list string :=
  omap Xml.text (Xml.findall e t).

Definition is_newznab_attr (name : string) (c : Xml.elem) : bool :=
  String.eqb (Xml.tag c) (qname newznab_ns "attr") &&
  match Xml.get c "name" with
  | Some n => String.eqb n name
  | None => false
  end.

(** The values of the newznab attributes called [name], in order. *)
Definition newznab_values (e : Xml.elem) (name : string) : list string :=
  omap (fun c => Xml.get c "value")
       (List.filter (is_newznab_attr name) (Xml.children e)).

(** A lower-case hexadecimal digit. *)
Definition is_hex_digit (c : ascii) : bool :=
  Py.between 48 57 (Py.ord c) || Py.between 97 102 (Py.ord c).

(** The category table of the examples as a file. *)
Definition sample_csv : csv_file :=
  CsvRows [["id"; "name"];
           ["2000"; "Movies"];
           [];
           [" 2040 "; " Movies/HD"; "extra"];
           ["4000"];
           ["2000"; "Films"]].

(** The name that a row gives to the id [k], if it gives one. *)
Definition row_hit (k : string) (row : list string) : option string :=
  match row with
  | category_id :: category_name :: _ =>
      if String.eqb (str_strip category_id) k
      then Some (str_strip category_name) else None
  | _ => None
  end.

(** The sample server with its table loaded from the sample file. *)
Definition csv_config : config :=
  Config "mock_api_key" "/srv/nzb" sample_catalog "http://localhost:5000"
         (load_categories sample_csv).


(** ** Proof steps *)

Ltac unfold_bind := unfold mbind, mret, result_bind, result_ret.

(** ** The built-ins against the interpreter *)

Example md5_empty : MD5.hexdigest (MD5.utf8 "") = "d41d8cd98f00b204e9800998ecf8427e".
Proof. vm_compute. reflexivity. Qed.

Example md5_a_nzb : MD5.hexdigest (MD5.utf8 "a.nzb") = "4fa7644819e4615f54d22958ab451402".
Proof. vm_compute. reflexivity. Qed.

Example py_tests :
  Py.int " 5 " = Some 5 /\ Py.int "-3" = Some (-3) /\ Py.int "1_000" = Some 1000 /\
  Py.int "1__0" = None /\ Py.int "_1" = None /\ Py.int "1_" = None /\
  Py.int "007" = Some 7 /\ Py.int "" = None /\ Py.int "abc" = None /\
  Py.int "+ 5" = None /\ Py.int "-0" = Some 0 /\
  Py.str 0 = "0" /\ Py.str (-5) = "-5" /\ Py.str 100 = "100" /\
  Py.split " a  b c " = ["a"; "b"; "c"] /\
  Py.split_on "," "a,,b" = ["a"; ""; "b"] /\ Py.split_on "," "" = [""] /\
  Py.replace "aa" "b" "aaa" = "ba" /\
  Py.replace "https://" "" (Py.replace "http://" "" "hthttp://tps://x") = "x" /\
  Py.slice [0;1;2;3;4;5;6;7;8;9] 5 8 = [5;6;7] /\
  Py.slice [0;1;2;3;4;5;6;7;8;9] 20 25 = [] /\
  Py.slice [0;1;2;3;4;5;6;7;8;9] 2 (-3) = [2;3;4;5;6] /\
  Py.path_join "/d" "a" = "/d/a" /\ Py.path_join "/d" "" = "/d/" /\
  Py.path_join "/d" "/a" = "/a" /\ Py.lower "AbC, Z" = "abc, z".
Proof. vm_compute. repeat split. Qed.

Example md5_latin1 :
  get_guid_from_filename (String (Py.chr 233) ".nzb")
  = "33b1e1c96b6e57046c01bf08af4bac95".
Proof. vm_compute. reflexivity. Qed.

Example md5_sample :
  get_guid_from_filename "bunny.nzb" = "5be8949c020c5ad879af6200b5e386db".
Proof. vm_compute. reflexivity. Qed.

(** ** Facts about the built-ins *)

Lemma truthy_false (s : string) : Py.truthy s = false <-> s = "".
Proof. destruct s; simpl; split; congruence. Qed.

Lemma truthy_true (s : string) : Py.truthy s = true <-> s <> "".
Proof. destruct s; simpl; split; congruence. Qed.

(** ** The gate on the API key *)

Lemma verify_api_key_spec (cfg : config) (a : args) :
  verify_api_key cfg a = true <->
  args_get a "apikey" = Some (api_key cfg) /\ api_key cfg <> "".
Proof.
  unfold verify_api_key.
  destruct (args_get a "apikey") as [key|]; [|split; [discriminate | intros [? _]; discriminate]].
  destruct (Py.truthy key) eqn:Ht; simpl.
  - destruct (String.eqb_spec key (api_key cfg)) as [->|Hne]; simpl.
    + apply truthy_true in Ht. split; auto.
    + split; [discriminate | intros [[=] _]; contradiction].
  - apply truthy_false in Ht; subst key.
    split; [discriminate | intros [[= <-] Hk]; contradiction].
Qed.

(** C5.  A request whose [apikey] parameter is absent, or is not exactly
    the configured key, gets the error document with code 100 and message
    "Invalid API key", whatever its other parameters, the clock and the
    file system are: nothing is dispatched. *)
Theorem api_invalid_key (cfg : config) (clock : nat -> string)
    (fs : filesystem) (a : args) :
  args_get a "apikey" <> Some (api_key cfg) ->
  api cfg clock fs a = Return (XmlResponse invalid_api_key_document).
Proof.
  intros Hkey. unfold api.
  destruct (verify_api_key cfg a) eqn:Hv; [|reflexivity].
  apply verify_api_key_spec in Hv. destruct Hv as [Hv _]. contradiction.
Qed.

Lemma api_invalid_key_witness :
  args_get [("t", "search"); ("apikey", "wrong"); ("q", "bunny")] "apikey"
    <> Some (api_key sample_config) /\
  args_get [("t", "get")] "apikey" <> Some (api_key sample_config) /\
  api sample_config sample_clock sample_fs
      [("t", "search"); ("apikey", "wrong"); ("q", "bunny")]
    = Return (XmlResponse invalid_api_key_document) /\
  api sample_config sample_clock sample_fs [("t", "get")]
    = Return (XmlResponse invalid_api_key_document).
Proof.
  assert (H1 : args_get [("t", "search"); ("apikey", "wrong"); ("q", "bunny")]
                 "apikey" <> Some (api_key sample_config))
    by (vm_compute; discriminate).
  assert (H2 : args_get [("t", "get")] "apikey" <> Some (api_key sample_config))
    by (vm_compute; discriminate).
  split; [exact H1 |]. split; [exact H2 |]. split.
  - exact (api_invalid_key sample_config sample_clock sample_fs _ H1).
  - exact (api_invalid_key sample_config sample_clock sample_fs _ H2).
Defined.

(** C10.  With the empty string as configured key every request is
    rejected with code 100: a request without [apikey], a request with
    another key, and the request whose [apikey] is the empty string and so
    equals the configured key. *)
Theorem api_empty_key_rejects_all (cfg : config) (clock : nat -> string)
    (fs : filesystem) :
  api_key cfg = "" ->
  (forall a, api cfg clock fs a = Return (XmlResponse invalid_api_key_document)) /\
  (forall a, args_get a "apikey" = Some (api_key cfg) ->
             verify_api_key cfg a = false) /\
  (forall a, args_get a "apikey" = None -> verify_api_key cfg a = false).
Proof.
  intros Hempty. split; [|split].
  - intros a. unfold api.
    destruct (verify_api_key cfg a) eqn:Hv; [|reflexivity].
    apply verify_api_key_spec in Hv. destruct Hv as [_ Hv]. contradiction.
  - intros a Ha. unfold verify_api_key. rewrite Ha, Hempty. reflexivity.
  - intros a Ha. unfold verify_api_key. rewrite Ha. reflexivity.
Qed.

Lemma api_empty_key_rejects_all_witness :
  api_key empty_key_config = "" /\
  args_get [("apikey", ""); ("t", "search")] "apikey"
    = Some (api_key empty_key_config) /\
  api empty_key_config sample_clock sample_fs [("apikey", ""); ("t", "search")]
    = Return (XmlResponse invalid_api_key_document).
Proof.
  split; [reflexivity | split; [reflexivity |]].
  exact (proj1 (api_empty_key_rejects_all empty_key_config sample_clock
                  sample_fs eq_refl) [("apikey", ""); ("t", "search")]).
Defined.

(** ** Dispatch on the operation *)



(** ** Substrings and the tokens of a query *)

Lemma startswith_spec (p s : string) :
  Py.startswith p s = true <-> exists post, s = p +:+ post.
Proof.
  revert s. induction p as [|a p IH]; intros s; simpl.
  - split; [intros _; exists s; reflexivity | reflexivity].
  - destruct s as [|b s]; [split; [discriminate | intros [post [=]]]|].
    rewrite andb_true_iff, IH. split.
    + intros [Hab [post ->]]. apply Ascii.eqb_eq in Hab. subst b.
      exists post. reflexivity.
    + intros [post [= -> ->]]. split; [apply Ascii.eqb_refl | eauto].
Qed.

Lemma contains_spec (t s : string) :
  Py.contains t s = true <-> substring t s.
Proof.
  unfold substring. induction s as [|c s IH]; simpl.
  - rewrite orb_false_r, startswith_spec. split.
    + intros [post H]. exists "", post. exact H.
    + intros ([|? ?] & post & H); [|discriminate H]. exists post. exact H.
  - rewrite orb_true_iff, IH.
    change (Py.startswith t (String c s) = true \/
            (exists pre post, s = pre +:+ t +:+ post) <->
            exists pre post, String c s = pre +:+ t +:+ post).
    rewrite startswith_spec. split.
    + intros [[post H] | (pre & post & H)].
      * exists "", post. exact H.
      * exists (String c pre), post. simpl. rewrite H. reflexivity.
    + intros ([|a pre] & post & H).
      * left. exists post. exact H.
      * right. injection H as _ H. exists pre, post. exact H.
Qed.


Lemma filter_all_true {A} (f : A -> bool) (l : list A) :
  Forall (fun x => f x = true) l -> List.filter f l = l.
Proof.
  induction 1 as [|x l Hx _ IH]; simpl; [reflexivity|].
  rewrite Hx, IH. reflexivity.
Qed.










Lemma text_match_spec (terms : list string) (it : item) :
  text_match terms it = true <->
  forall term, In term terms ->
               substring term (Py.lower (default "" (Item.title it))).
Proof.
  unfold text_match. destruct terms as [|t0 terms'].
  - split; [intros _ term [] | reflexivity].
  - rewrite forallb_forall. split; intros H term Hin.
    + apply contains_spec, H, Hin.
    + apply contains_spec, H, Hin.
Qed.


Example query_terms_example :
  query_terms "Big-Buck, bunny!  1080P" = ["big"; "buck"; "bunny"; "1080p"] /\
  query_terms "?!" = [] /\
  map (text_match (query_terms "BUNNY big")) sample_catalog = [true; false; false] /\
  map (text_match (query_terms "e")) sample_catalog = [false; true; false] /\
  map (text_match (query_terms "")) sample_catalog = [true; true; true].
Proof. vm_compute. repeat split. Qed.

(** ** The matched sequence *)

(** A loop that appends the elements passing a test is a filter. *)
Lemma fold_left_append_filter {A B} (step : list B -> A -> list B)
    (f : A -> bool) (g : A -> B) (l : list A) (acc : list B) :
  (forall results x,
     step results x = if f x then results ++ [g x] else results) ->
  fold_left step l acc = acc ++ map g (List.filter f l).
Proof.
  intros Hstep. revert acc. induction l as [|x l IH]; intros acc; simpl.
  - symmetry. apply app_nil_r.
  - rewrite IH, Hstep. destruct (f x); [|reflexivity].
    simpl. rewrite <- app_assoc. reflexivity.
Qed.

(** The search loop keeps, in catalog order, the entries that pass both
    tests. *)
Lemma search_results_filter (cfg : config) (terms : list string) (cat : string) :
  search_results cfg terms cat =
  List.filter (fun it => text_match terms it && category_match cat it)
              (nzbs_data cfg).
Proof.
  unfold search_results.
  rewrite (fold_left_append_filter _
             (fun it => text_match terms it && category_match cat it) id).
  - simpl. apply map_id.
  - intros results it.
    destruct (text_match terms it), (category_match cat it); reflexivity.
Qed.













Example search_results_example :
  search_results sample_config (query_terms "") "2000" =
    [entry "Big Buck Bunny 1080p" "bunny.nzb" ["2000"; "2040"] 700;
     entry "Sintel.2010.WEB" "sintel.nzb" ["2000"] 500] /\
  search_results sample_config (query_terms "") "4010,2040" =
    [entry "Big Buck Bunny 1080p" "bunny.nzb" ["2000"; "2040"] 700;
     entry "Ubuntu 24.04 ISO" "ubuntu.nzb" ["4000"; "4010"] 4000] /\
  search_results sample_config (query_terms "") "204" = [] /\
  search_results sample_config (query_terms "") " 2000" = [] /\
  search_results sample_config (query_terms "B") "" = sample_catalog /\
  search_results sample_config (query_terms "u") "4000" =
    [entry "Ubuntu 24.04 ISO" "ubuntu.nzb" ["4000"; "4010"] 4000].
Proof. vm_compute. repeat split. Qed.

(** ** The category resolver *)



Lemma get_named_categories_of_parents (cfg : config) (cats ps : list string) :
  child_parents cats = Return ps ->
  get_named_categories cfg cats =
  Return (map (get_category_name cfg)
              (List.filter (fun c => negb (Py.mem c ps)) cats)).
Proof.
  intros Hps. unfold get_named_categories. rewrite Hps. unfold_bind.
  f_equal.
  rewrite (fold_left_append_filter _ (fun c => negb (Py.mem c ps))
             (get_category_name cfg)); [reflexivity|].
  intros named c. reflexivity.
Qed.





(** ** Pagination and the search document *)

(** A slice with bounds that are not negative. *)
Lemma slice_firstn_skipn {A} (l : list A) (offset limit : Z) :
  0 <= offset -> 0 <= limit ->
  Py.slice l offset (offset + limit) =
  firstn (Z.to_nat limit) (skipn (Z.to_nat offset) l).
Proof.
  intros Ho Hl. unfold Py.slice, Py.slice_index.
  destruct (Z.ltb_spec offset 0) as [?|_]; [lia|].
  destruct (Z.ltb_spec (offset + limit) 0) as [?|_]; [lia|].
  remember (Z.of_nat (length l)) as n eqn:Hn.
  destruct (Z.le_gt_cases n offset) as [Hbeyond|Hin].
  - rewrite (skipn_all2 l (n := Z.to_nat offset)) by lia.
    rewrite (skipn_all2 l (n := Z.to_nat (Z.min offset n))) by lia.
    rewrite !firstn_nil. reflexivity.
  - rewrite (Z.min_l offset n) by lia.
    destruct (Z.le_gt_cases (offset + limit) n) as [Hfit|Hover].
    + rewrite (Z.min_l (offset + limit) n) by lia. f_equal. lia.
    + rewrite (Z.min_r (offset + limit) n) by lia.
      rewrite !firstn_all2; [reflexivity | |]; rewrite length_skipn; lia.
Qed.

Lemma build_items_spec (cfg : config) (clock : nat -> string)
    (page : list item) (k : nat) (es : list Xml.elem) :
  build_items cfg clock k page = Return es ->
  Forall2 (fun e it => exists t, build_item_xml cfg t it = Return e /\
                                 Xml.tag e = "item") es page.
Proof.
  revert k es. induction page as [|it page IH]; intros k es; simpl.
  - intros [= <-]. constructor.
  - unfold_bind.
    destruct (build_item_xml cfg (clock k) it) as [e|] eqn:He; [|discriminate].
    destruct (build_items cfg clock (S k) page) as [es'|] eqn:Hes; [|discriminate].
    intros [= <-]. constructor; [|eapply IH; exact Hes].
    exists (clock k). split; [exact He|].
    unfold build_item_xml in He. revert He. unfold_bind.
    destruct (get_named_categories cfg (item_categories it)); [|discriminate].
    intros [= <-]. reflexivity.
Qed.


Lemma rendered_items_search_document (cfg : config) (offset : Z)
    (results : list item) (items : list Xml.elem) :
  Forall (fun e => Xml.tag e = "item") items ->
  rendered_items (search_document cfg offset results items) = items.
Proof.
  intros Htags. unfold rendered_items, search_document, Xml.find, Xml.findall.
  cbn [Xml.children List.filter Xml.tag String.eqb Ascii.eqb Bool.eqb head].
  rewrite List.filter_app.
  rewrite (filter_all_true _ items).
  - reflexivity.
  - eapply Forall_impl; [exact Htags|].
    intros e He. simpl in He. rewrite He. reflexivity.
Qed.

Lemma response_total_search_document (cfg : config) (offset : Z)
    (results : list item) (items : list Xml.elem) :
  response_total (search_document cfg offset results items) =
  Some (Py.str (Z.of_nat (length results))).
Proof. reflexivity. Qed.




Example search_pagination_beyond :
  exists doc,
    handle_search ten_config sample_clock [("offset", "20"); ("limit", "5")]
      = Return (XmlResponse doc) /\
    rendered_items doc = [] /\
    response_total doc = Some "10" /\
    Xml.get (response_element 20 ten_catalog) "offset" = Some "20".
Proof. eexists. vm_compute. repeat split. Qed.


(** ** Limits and offsets that are not numbers *)

(** C6, as the program has it.  In an authenticated search request whose
    [limit] or [offset] is present and rejected by [int], no default is
    substituted and nothing is searched: [ValueError] on that literal
    ([limit] being read first) leaves the handler and the view, so Flask
    answers with its own internal server error and no error document of
    the program is sent. *)
Theorem search_non_numeric_raises (cfg : config) (clock : nat -> string)
    (fs : filesystem) (a : args) :
  verify_api_key cfg a = true ->
  is_search_op (default "" (args_get a "t")) = true ->
  (exists s, args_get a "limit" = Some s /\ Py.int s = None) \/
  (exists s, args_get a "offset" = Some s /\ Py.int s = None) ->
  (exists s, (args_get a "limit" = Some s \/ args_get a "offset" = Some s) /\
             Py.int s = None /\
             handle_search cfg clock a = Raise (ValueError s) /\
             api cfg clock fs a = Raise (ValueError s)) /\
  (forall s, args_get a "limit" = Some s -> Py.int s = None ->
             handle_search cfg clock a = Raise (ValueError s)) /\
  Flask.dispatch (api cfg clock fs a) = Flask.InternalServerError /\
  (forall r, api cfg clock fs a <> Return r).
Proof.
  intros Hv Ht Hbad.
  assert (Hapi : api cfg clock fs a = handle_search cfg clock a).
  { unfold api. rewrite Hv. unfold is_search_op in Ht. simpl.
    rewrite Ht. reflexivity. }
  assert (Hlimit : forall s, args_get a "limit" = Some s -> Py.int s = None ->
                             handle_search cfg clock a = Raise (ValueError s)).
  { intros s Hs Hint. unfold handle_search, int_arg, int_of.
    rewrite Hs, Hint. reflexivity. }
  assert (Hraise : exists s,
             (args_get a "limit" = Some s \/ args_get a "offset" = Some s) /\
             Py.int s = None /\
             handle_search cfg clock a = Raise (ValueError s)).
  { destruct (args_get a "limit") as [sl|] eqn:Hl.
    - destruct (Py.int sl) as [nl|] eqn:Hnl.
      + destruct Hbad as [(s & [= <-] & Hs) | (s & Hs & Hint)]; [congruence|].
        exists s. split; [right; exact Hs|]. split; [exact Hint|].
        unfold handle_search, int_arg, int_of.
        rewrite Hl, Hnl, Hs, Hint. reflexivity.
      + exists sl. split; [left; reflexivity|]. split; [exact Hnl|].
        apply Hlimit; [reflexivity | exact Hnl].
    - destruct Hbad as [(s & [=] & _) | (s & Hs & Hint)].
      exists s. split; [right; exact Hs|]. split; [exact Hint|].
      unfold handle_search, int_arg, int_of.
      rewrite Hl, Hs, Hint. reflexivity. }
  destruct Hraise as (s & Hwhere & Hint & Hs).
  split; [exists s; rewrite Hapi; auto|].
  split; [exact Hlimit|].
  rewrite Hapi, Hs. split; [reflexivity | discriminate].
Qed.

Lemma search_non_numeric_raises_witness :
  verify_api_key sample_config bad_limit_request = true /\
  is_search_op (default "" (args_get bad_limit_request "t")) = true /\
  (args_get bad_limit_request "limit" = Some "ten" /\ Py.int "ten" = None) /\
  Flask.dispatch (api sample_config sample_clock sample_fs bad_limit_request)
    = Flask.InternalServerError.
Proof.
  split; [reflexivity|]. split; [reflexivity|]. split; [split; reflexivity|].
  refine (proj1 (proj2 (proj2
            (search_non_numeric_raises sample_config sample_clock sample_fs
               bad_limit_request eq_refl eq_refl _)))).
  left. exists "ten". split; reflexivity.
Defined.

(** C6 as the specification words it fails: the request below is an
    authenticated search with a [limit] that is no number; what comes
    back is not an error document with one of the codes 100, 200, 203,
    300, 900 (nor any other document) but the server fault of the
    framework. *)
Lemma search_non_numeric_limit_no_error_document :
  args_get bad_limit_request "limit" = Some "ten" /\
  Py.int "ten" = None /\
  api sample_config sample_clock sample_fs bad_limit_request
    = Raise (ValueError "ten") /\
  Flask.dispatch (api sample_config sample_clock sample_fs bad_limit_request)
    = Flask.InternalServerError /\
  ~ exists code message,
      In code [100; 200; 203; 300; 900] /\
      api sample_config sample_clock sample_fs bad_limit_request
        = Return (error_response code message).
Proof.
  repeat (split; [reflexivity|]).
  intros (code & message & _ & H). vm_compute in H. discriminate H.
Qed.

(** ** Retrieval by identifier *)

Lemma guid_not_empty (filename : string) : get_guid_from_filename filename <> "".
Proof.
  unfold get_guid_from_filename, MD5.hexdigest, MD5.digest.
  destruct (MD5.blocks _ _ _) as [[[A B] C] D]. simpl. discriminate.
Qed.

(** The scan stops at the first entry whose identifier is [nzb_id]. *)
Lemma find_filename_first (pre post : list item) (it : item) (nzb_id : string) :
  (forall x, In x pre -> get_guid_from_filename (item_filename x) <> nzb_id) ->
  get_guid_from_filename (item_filename it) = nzb_id ->
  find_filename (pre ++ it :: post) nzb_id = Some (item_filename it).
Proof.
  intros Hpre Hit. induction pre as [|x pre IH]; simpl.
  - apply String.eqb_eq in Hit. rewrite Hit. reflexivity.
  - assert (Hx := Hpre x (or_introl eq_refl)).
    apply String.eqb_neq in Hx. rewrite Hx.
    apply IH. intros y Hy. apply Hpre. right. exact Hy.
Qed.


Lemma find_filename_some (items : list item) (nzb_id name : string) :
  find_filename items nzb_id = Some name ->
  exists pre it post,
    items = pre ++ it :: post /\
    (forall x, In x pre -> get_guid_from_filename (item_filename x) <> nzb_id) /\
    get_guid_from_filename (item_filename it) = nzb_id /\
    name = item_filename it.
Proof.
  induction items as [|x items IH]; simpl; [discriminate|].
  destruct (String.eqb_spec (get_guid_from_filename (item_filename x)) nzb_id)
    as [Heq|Hne].
  - intros [= <-]. exists [], x, items. repeat split; [intros ? []|exact Heq].
  - intros Hfind. destruct (IH Hfind) as (pre & it & post & -> & Hpre & Hit & Hname).
    exists (x :: pre), it, post. repeat split; try assumption.
    intros y [<-|Hy]; [exact Hne | apply Hpre, Hy].
Qed.

Lemma handle_get_found (cfg : config) (fs : filesystem) (a : args)
    (nzb_id name : string) :
  args_get a "id" = Some nzb_id -> nzb_id <> "" ->
  find_filename (nzbs_data cfg) nzb_id = Some name -> name <> "" ->
  handle_get cfg fs a = serve cfg fs name.
Proof.
  intros Ha Hid Hfind Hname. unfold handle_get, serve.
  rewrite Ha. simpl default.
  apply truthy_true in Hid, Hname. rewrite Hid, Hfind. simpl. rewrite Hname. simpl.
  destruct (isfile fs _); [|reflexivity]. simpl.
  destruct (read_text fs _); [|reflexivity].
  destruct (send_file fs _); reflexivity.
Qed.

Lemma handle_get_total (cfg : config) (fs : filesystem) (a : args) :
  is_file_response (handle_get cfg fs a) \/ is_error_document (handle_get cfg fs a).
Proof.
  unfold handle_get, is_file_response, is_error_document.
  destruct (negb (Py.truthy _)); [right; exists 200; eexists; simpl; eauto|].
  destruct (negb (truthy_opt _)); [right; exists 300; eexists; simpl; eauto|].
  destruct (negb (isfile fs _)); [right; exists 300; eexists; simpl; eauto|].
  destruct (read_text fs _); [|right; exists 900; eexists; simpl; eauto].
  destruct (send_file fs _); [|right; exists 900; eexists; simpl; eauto].
  left. eauto.
Qed.


Lemma sample_ids :
  map (fun it => get_guid_from_filename (item_filename it)) sample_catalog
  = [bunny_id; sintel_id; ubuntu_id].
Proof. vm_compute. reflexivity. Qed.



(** ** The identifier round trip *)

(** C1, as the program has it.  Take the entry at position [k] of the
    catalog, with a file name that is not empty, that no other position
    of the catalog has, and whose identifier no other file name of the
    catalog shares.  Scanning the catalog for the identifier of that file
    name stops at position [k] and gives that file name, which designates
    position [k] only; a [get] request for the identifier goes on with
    that file.  The scan only ever answers with an entry whose computed
    identifier is exactly the string asked for. *)
Theorem identifier_round_trip (cfg : config) (k : nat) (it : item) :
  nzbs_data cfg !! k = Some it ->
  item_filename it <> "" ->
  (forall j it', nzbs_data cfg !! j = Some it' ->
                 item_filename it' = item_filename it -> j = k) ->
  (forall it', In it' (nzbs_data cfg) ->
               get_guid_from_filename (item_filename it') =
               get_guid_from_filename (item_filename it) ->
               item_filename it' = item_filename it) ->
  let nzb_id := get_guid_from_filename (item_filename it) in
  find_filename (nzbs_data cfg) nzb_id = Some (item_filename it) /\
  truthy_opt (find_filename (nzbs_data cfg) nzb_id) = true /\
  (forall j it', (j < k)%nat -> nzbs_data cfg !! j = Some it' ->
                 get_guid_from_filename (item_filename it') <> nzb_id) /\
  (forall fs a, args_get a "id" = Some nzb_id ->
                handle_get cfg fs a = serve cfg fs (item_filename it)) /\
  (forall id name, find_filename (nzbs_data cfg) id = Some name ->
     exists it', In it' (nzbs_data cfg) /\
                 get_guid_from_filename (item_filename it') = id /\
                 name = item_filename it').
Proof.
  intros Hk Hname Hunique Hguid nzb_id.
  assert (Hbefore : forall j it', (j < k)%nat -> nzbs_data cfg !! j = Some it' ->
                      get_guid_from_filename (item_filename it') <> nzb_id).
  { intros j it' Hlt Hj Heq.
    assert (Hin : In it' (nzbs_data cfg))
      by (apply list_elem_of_In; eapply list_elem_of_lookup_2; exact Hj).
    pose proof (Hunique j it' Hj (Hguid it' Hin Heq)). lia. }
  assert (Hfind : find_filename (nzbs_data cfg) nzb_id = Some (item_filename it)).
  { rewrite <- (take_drop_middle _ _ _ Hk).
    apply find_filename_first; [|reflexivity].
    intros x Hx. apply list_elem_of_In, list_elem_of_lookup_1 in Hx.
    destruct Hx as (j & Hj). apply lookup_take_Some in Hj.
    destruct Hj as (Hj & Hlt). exact (Hbefore j x Hlt Hj). }
  split; [exact Hfind|].
  split; [rewrite Hfind; apply truthy_true; exact Hname|].
  split; [exact Hbefore|].
  split.
  - intros fs a Ha.
    apply (handle_get_found cfg fs a nzb_id); try assumption.
    apply guid_not_empty.
  - intros id name Hsome.
    destruct (find_filename_some _ _ _ Hsome) as (pre & x & post & Hcat & _ & Hx & Hn).
    exists x. split; [|split; assumption].
    rewrite Hcat. apply in_elt.
Qed.

Lemma identifier_round_trip_witness :
  nzbs_data sample_config !! 1%nat
    = Some (entry "Sintel.2010.WEB" "sintel.nzb" ["2000"] 500) /\
  find_filename (nzbs_data sample_config)
                (get_guid_from_filename "sintel.nzb") = Some "sintel.nzb" /\
  handle_get sample_config sample_fs [("id", sintel_id)]
    = serve sample_config sample_fs "sintel.nzb".
Proof.
  destruct (identifier_round_trip sample_config 1
              (entry "Sintel.2010.WEB" "sintel.nzb" ["2000"] 500))
    as (Hfind & _ & _ & Hget & _).
  - reflexivity.
  - discriminate.
  - intros [|[|[|j]]] it' Hj Hname; [| reflexivity | |];
      vm_compute in Hj; [| |discriminate Hj]; injection Hj as <-; discriminate Hname.
  - intros it' [<-|[<-|[<-|[]]]] Hid; [|reflexivity|];
      vm_compute in Hid; discriminate Hid.
  - split; [reflexivity|]. split; [exact Hfind|].
    apply Hget. reflexivity.
Defined.

Example identifier_is_case_sensitive :
  handle_get sample_config sample_fs [("id", "5BE8949C020C5AD879AF6200B5E386DB")]
    = error_response 300 "NZB with ID 5BE8949C020C5AD879AF6200B5E386DB not found".
Proof. vm_compute. reflexivity. Qed.

(** C1 as the specification words it fails on two file names with one
    MD5 digest: both file names are unique in the catalog, and the
    identifier of the second entry resolves to the first. *)
Lemma identifier_round_trip_md5_collision :
  nzbs_data collision_config !! 1%nat
    = Some (entry "Second release" collide_b ["2000"] 20) /\
  NoDup (map item_filename (nzbs_data collision_config)) /\
  get_guid_from_filename collide_a = "faad49866e9498fc1719f5289e7a0269" /\
  get_guid_from_filename collide_b = "faad49866e9498fc1719f5289e7a0269" /\
  find_filename (nzbs_data collision_config) (get_guid_from_filename collide_b)
    = Some collide_a /\
  find_filename (nzbs_data collision_config) (get_guid_from_filename collide_b)
    <> Some collide_b /\
  handle_get collision_config full_fs [("id", get_guid_from_filename collide_b)]
    = FileResponse (Py.path_join "/srv/nzb" collide_a) collide_a "application/x-nzb".
Proof.
  split; [reflexivity|].
  split.
  { apply NoDup_cons. split; [|apply NoDup_singleton].
    intros H. apply list_elem_of_In in H. destruct H as [H|[]].
    vm_compute in H. discriminate H. }
  repeat (split; [vm_compute; reflexivity|]).
  split; [vm_compute; discriminate | vm_compute; reflexivity].
Qed.

(** The round trip also needs the file name not to be empty: the only
    entry below is looked up by its own identifier and reported as not
    found. *)
Lemma identifier_round_trip_empty_filename :
  find_filename (nzbs_data nameless_config) (get_guid_from_filename "") = Some "" /\
  truthy_opt (find_filename (nzbs_data nameless_config)
                            (get_guid_from_filename "")) = false /\
  handle_get nameless_config full_fs [("id", get_guid_from_filename "")]
    = error_response 300 ("NZB with ID " +:+ empty_name_id +:+ " not found").
Proof. vm_compute. repeat split. Qed.


(** ** The shape of an identifier *)

Lemma hex_digit_is_hex (n : Z) :
  0 <= n < 16 -> is_hex_digit (MD5.hex_digit n) = true.
Proof.
  intros Hn. rewrite <- (Z2Nat.id n) by lia.
  assert (Hk : (Z.to_nat n < 16)%nat) by lia.
  revert Hk. generalize (Z.to_nat n). clear. intros k Hk.
  do 16 (destruct k as [|k]; [reflexivity|]). lia.
Qed.

Lemma le_bytes_spec (k : nat) (n : Z) :
  length (MD5.le_bytes k n) = k /\
  Forall (fun b => 0 <= b < 256) (MD5.le_bytes k n).
Proof.
  revert n. induction k as [|k IH]; intros n; simpl.
  - split; [reflexivity | constructor].
  - destruct (IH (n / 256)) as [Hlen Hall]. split; [rewrite Hlen; reflexivity|].
    constructor; [apply Z.mod_pos_bound; lia | exact Hall].
Qed.

Lemma hex_spec (bs : list Z) :
  Forall (fun b => 0 <= b < 256) bs ->
  String.length (MD5.hex bs) = (2 * length bs)%nat /\
  Forall (fun c => is_hex_digit c = true) (chars (MD5.hex bs)).
Proof.
  induction 1 as [|b bs Hb _ [IHlen IHall]]; simpl.
  - split; [reflexivity | constructor].
  - split; [rewrite IHlen; lia|].
    constructor; [apply hex_digit_is_hex; split;
                    [apply Z.div_pos; lia | apply Z.div_lt_upper_bound; lia]|].
    constructor; [apply hex_digit_is_hex, Z.mod_pos_bound; lia | exact IHall].
Qed.

Lemma guid_shape (filename : string) :
  String.length (get_guid_from_filename filename) = 32%nat /\
  Forall (fun c => is_hex_digit c = true)
         (chars (get_guid_from_filename filename)).
Proof.
  unfold get_guid_from_filename, MD5.hexdigest, MD5.digest.
  destruct (MD5.blocks _ _ _) as [[[A B] C] D].
  assert (Hbytes : length (MD5.le_bytes 4 A ++ MD5.le_bytes 4 B ++
                           MD5.le_bytes 4 C ++ MD5.le_bytes 4 D) = 16%nat /\
                   Forall (fun b => 0 <= b < 256)
                     (MD5.le_bytes 4 A ++ MD5.le_bytes 4 B ++
                      MD5.le_bytes 4 C ++ MD5.le_bytes 4 D)).
  { destruct (le_bytes_spec 4 A) as [LA FA], (le_bytes_spec 4 B) as [LB FB],
      (le_bytes_spec 4 C) as [LC FC], (le_bytes_spec 4 D) as [LD FD].
    split.
    - rewrite !length_app, LA, LB, LC, LD. reflexivity.
    - repeat (apply Forall_app; split); assumption. }
  destruct Hbytes as [Hlen Hall].
  destruct (hex_spec _ Hall) as [Hl Hh]. rewrite Hlen in Hl.
  split; [exact Hl | exact Hh].
Qed.

(** X1.  Whatever the file name, its identifier is a string of exactly 32
    characters, each one of 0-9 or a-f. *)
Theorem guid_is_32_lowercase_hex (filename : string) :
  String.length (get_guid_from_filename filename) = 32%nat /\
  forall c, In c (chars (get_guid_from_filename filename)) ->
            is_hex_digit c = true.
Proof.
  destruct (guid_shape filename) as [Hlen Hall].
  split; [exact Hlen|].
  intros c Hc. rewrite Forall_forall in Hall.
  apply Hall, list_elem_of_In, Hc.
Qed.



(** ** What a rendered item carries *)

Lemma filter_map_all {A B} (f : B -> bool) (g : A -> B) (l : list A) :
  (forall x, f (g x) = true) -> List.filter f (map g l) = map g l.
Proof.
  intros H. induction l as [|x l IH]; simpl; [reflexivity|].
  rewrite H, IH. reflexivity.
Qed.

Lemma filter_map_none {A B} (f : B -> bool) (g : A -> B) (l : list A) :
  (forall x, f (g x) = false) -> List.filter f (map g l) = [].
Proof.
  intros H. induction l as [|x l IH]; simpl; [reflexivity|].
  rewrite H, IH. reflexivity.
Qed.

Lemma omap_map_some {A B C} (f : B -> option C) (g : A -> B) (h : A -> C)
    (l : list A) :
  (forall x, f (g x) = Some (h x)) -> omap f (map g l) = map h l.
Proof.
  intros H. induction l as [|x l IH]; simpl; [reflexivity|].
  rewrite H. f_equal. exact IH.
Qed.

(** The element that [build_item_xml] appends, spelled out. *)
Lemma build_item_xml_form (cfg : config) (t : string) (it : item) (e : Xml.elem) :
  build_item_xml cfg t it = Return e ->
  exists named,
    get_named_categories cfg (item_categories it) = Return named /\
    let guid := get_guid_from_filename (item_filename it) in
    let details := external_url cfg +:+ "/details/" +:+ guid in
    let link := external_url cfg +:+ "/api?t=get&id=" +:+ guid
                +:+ "&apikey=" +:+ api_key cfg in
    let size := Py.str (default 0 (Item.size it)) in
    e = Xml.Elem "item" [] [] None
          ([Xml.leaf "title" (default "Unknown" (Item.title it));
            Xml.Elem "guid" [] [("isPermaLink", "true")] (Some details) [];
            Xml.leaf "link" link;
            Xml.leaf "comments" details;
            Xml.leaf "pubDate" t]
           ++ map (Xml.leaf "category") named
           ++ [Xml.Elem "enclosure" []
                 [("url", link); ("length", size); ("type", "application/x-nzb")]
                 None []]
           ++ map (newznab_attr "category") (item_categories it)
           ++ [newznab_attr "size" size;
               newznab_attr "guid" guid;
               newznab_attr "group" (default "alt.binaries" (Item.group it))]).
Proof.
  unfold build_item_xml. unfold_bind.
  destruct (get_named_categories cfg (item_categories it)) as [named|]; [|discriminate].
  intros [= <-]. exists named. split; reflexivity.
Qed.

Lemma newznab_values_cons (name n v : string) (rest : list Xml.elem) :
  omap (fun c => Xml.get c "value")
       (List.filter (is_newznab_attr name) (newznab_attr n v :: rest)) =
  (if String.eqb n name then [v] else [])
  ++ omap (fun c => Xml.get c "value") (List.filter (is_newznab_attr name) rest).
Proof.
  assert (Hattr : is_newznab_attr name (newznab_attr n v) = String.eqb n name).
  { reflexivity. }
  simpl List.filter. rewrite Hattr.
  destruct (String.eqb n name); reflexivity.
Qed.

Lemma newznab_values_map (name n : string) (vs : list string) :
  omap (fun c => Xml.get c "value")
       (List.filter (is_newznab_attr name) (map (newznab_attr n) vs)) =
  if String.eqb n name then vs else [].
Proof.
  induction vs as [|v vs IH].
  - destruct (String.eqb n name); reflexivity.
  - change (map (newznab_attr n) (v :: vs))
      with (newznab_attr n v :: map (newznab_attr n) vs).
    rewrite newznab_values_cons, IH.
    destruct (String.eqb n name); reflexivity.
Qed.

Lemma item_newznab_values (named cats : list string) (fixed : list Xml.elem)
    (enclosure : Xml.elem) (size guid group name : string) :
  List.filter (is_newznab_attr name) fixed = [] ->
  is_newznab_attr name enclosure = false ->
  newznab_values
    (Xml.Elem "item" [] [] None
       (fixed ++ map (Xml.leaf "category") named ++ [enclosure]
        ++ map (newznab_attr "category") cats
        ++ [newznab_attr "size" size; newznab_attr "guid" guid;
            newznab_attr "group" group])) name =
  (if String.eqb "category" name then cats else [])
  ++ (if String.eqb "size" name then [size] else [])
  ++ (if String.eqb "guid" name then [guid] else [])
  ++ (if String.eqb "group" name then [group] else []).
Proof.
  intros Hfixed Henc. unfold newznab_values. simpl Xml.children.
  rewrite !List.filter_app, Hfixed.
  rewrite (filter_map_none _ (Xml.leaf "category")) by reflexivity.
  rewrite !app_nil_l.
  change (List.filter (is_newznab_attr name) (enclosure :: ?l))
    with (if is_newznab_attr name enclosure
          then enclosure :: List.filter (is_newznab_attr name) l
          else List.filter (is_newznab_attr name) l).
  rewrite Henc, List.filter_app, omap_app, newznab_values_map.
  rewrite !newznab_values_cons. simpl omap. rewrite app_nil_r. reflexivity.
Qed.

(** X4.  An [item] element that was rendered reads back to the entry it
    was rendered from: its title (or "Unknown"), the time of the call, the
    display names of the resolver as [category] elements, every raw
    category id (suppressed parents too) as a newznab attribute, in
    order, its size (or 0), group (or "alt.binaries") and identifier, and
    an enclosure whose url is the link. *)
Theorem item_reads_back (cfg : config) (t : string) (it : item) (e : Xml.elem) :
  build_item_xml cfg t it = Return e ->
  Xml.tag e = "item" /\
  child_text e "title" = Some (default "Unknown" (Item.title it)) /\
  child_text e "pubDate" = Some t /\
  get_named_categories cfg (item_categories it) = Return (child_texts e "category") /\
  newznab_values e "category" = item_categories it /\
  newznab_values e "size" = [Py.str (default 0 (Item.size it))] /\
  newznab_values e "group" = [default "alt.binaries" (Item.group it)] /\
  newznab_values e "guid" = [get_guid_from_filename (item_filename it)] /\
  (c ← Xml.find e "enclosure"; Xml.get c "url") = child_text e "link".
Proof.
  intros He. destruct (build_item_xml_form _ _ _ _ He) as (named & Hnamed & ->).
  split; [reflexivity|]. split; [reflexivity|]. split; [reflexivity|].
  split.
  { rewrite Hnamed. f_equal. unfold child_texts, Xml.findall. cbn [Xml.children].
    rewrite !List.filter_app.
    rewrite (filter_map_all _ (Xml.leaf "category")) by reflexivity.
    rewrite (filter_map_none _ (newznab_attr "category")) by reflexivity.
    simpl. rewrite app_nil_r.
    rewrite (omap_map_some _ _ id) by reflexivity. symmetry. apply map_id. }
  split; [rewrite item_newznab_values by reflexivity; simpl; apply app_nil_r|].
  split; [rewrite item_newznab_values by reflexivity; reflexivity|].
  split; [rewrite item_newznab_values by reflexivity; reflexivity|].
  split; [rewrite item_newznab_values by reflexivity; reflexivity|].
  unfold child_text, Xml.find, Xml.findall. cbn [Xml.children].
  rewrite !List.filter_app.
  rewrite (filter_map_none _ (Xml.leaf "category")) by reflexivity.
  reflexivity.
Qed.

Lemma item_reads_back_witness :
  exists e,
    build_item_xml sample_config "now"
      (entry "Big Buck Bunny 1080p" "bunny.nzb" ["2000"; "2040"] 700) = Return e /\
    child_texts e "category" = ["Movies/HD"] /\
    newznab_values e "category" = ["2000"; "2040"] /\
    newznab_values e "guid" = [bunny_id].
Proof.
  eexists. split; [reflexivity|].
  pose proof (item_reads_back sample_config "now"
                (entry "Big Buck Bunny 1080p" "bunny.nzb" ["2000"; "2040"] 700)
                _ eq_refl) as (_ & _ & _ & Hnames & Hcats & _ & _ & Hguid & _).
  split; [|split; [exact Hcats | exact Hguid]].
  exact (f_equal (fun r => match r with Return l => l | Raise _ => [] end)
                 (eq_sym Hnames)).
Defined.

(** ** From a search result to the file *)

Lemma find_filename_at (items : list item) (k : nat) (it : item) :
  items !! k = Some it ->
  (forall j it', items !! j = Some it' ->
                 get_guid_from_filename (item_filename it') =
                 get_guid_from_filename (item_filename it) ->
                 item_filename it' = item_filename it) ->
  find_filename items (get_guid_from_filename (item_filename it))
  = Some (item_filename it).
Proof.
  intros Hk Hsame. revert k Hk Hsame.
  induction items as [|x items IH]; intros k Hk Hsame; [destruct k; discriminate|].
  simpl.
  destruct (String.eqb_spec (get_guid_from_filename (item_filename x))
              (get_guid_from_filename (item_filename it))) as [Heq|Hne].
  - f_equal. exact (Hsame 0%nat x eq_refl Heq).
  - destruct k as [|k]; [injection Hk as ->; contradiction|].
    apply (IH k Hk). intros j it' Hj. exact (Hsame (S j) it' Hj).
Qed.

(** X3.  The link of a rendered item leads back to the file of its entry.
    For an entry of the catalog with a file name that is not empty and
    whose identifier no other file name of the catalog shares, and a
    configured key that is not empty: the rendered [link] is the external
    url followed by "/api?t=get&id=", the identifier, "&apikey=" and the
    key, and the request with exactly these three parameters passes the
    gate and is answered as [handle_get] answers for the file of that
    entry. *)
Theorem rendered_link_serves_entry (cfg : config) (clock : nat -> string)
    (fs : filesystem) (t : string) (k : nat) (it : item) (e : Xml.elem) :
  nzbs_data cfg !! k = Some it ->
  item_filename it <> "" ->
  (forall j it', nzbs_data cfg !! j = Some it' ->
                 get_guid_from_filename (item_filename it') =
                 get_guid_from_filename (item_filename it) ->
                 item_filename it' = item_filename it) ->
  api_key cfg <> "" ->
  build_item_xml cfg t it = Return e ->
  let guid := get_guid_from_filename (item_filename it) in
  child_text e "link" =
    Some (external_url cfg +:+ "/api?t=get&id=" +:+ guid
          +:+ "&apikey=" +:+ api_key cfg) /\
  api cfg clock fs [("t", "get"); ("id", guid); ("apikey", api_key cfg)] =
    Return (serve cfg fs (item_filename it)).
Proof.
  intros Hk Hname Hsame Hkey He guid.
  destruct (build_item_xml_form _ _ _ _ He) as (named & _ & ->).
  split; [reflexivity|].
  assert (Hv : verify_api_key cfg
                 [("t", "get"); ("id", guid); ("apikey", api_key cfg)] = true).
  { apply verify_api_key_spec. split; [reflexivity | exact Hkey]. }
  unfold api. rewrite Hv. simpl. f_equal.
  apply (handle_get_found cfg fs _ guid).
  - reflexivity.
  - apply guid_not_empty.
  - apply (find_filename_at _ k); assumption.
  - exact Hname.
Qed.

Lemma rendered_link_serves_entry_witness :
  exists e,
    build_item_xml sample_config "now"
      (entry "Big Buck Bunny 1080p" "bunny.nzb" ["2000"; "2040"] 700) = Return e /\
    child_text e "link" =
      Some "http://localhost:5000/api?t=get&id=5be8949c020c5ad879af6200b5e386db&apikey=mock_api_key" /\
    api sample_config sample_clock sample_fs
        [("t", "get"); ("id", bunny_id); ("apikey", "mock_api_key")] =
      Return (FileResponse "/srv/nzb/bunny.nzb" "bunny.nzb" "application/x-nzb").
Proof.
  eexists. split; [reflexivity|].
  refine (rendered_link_serves_entry sample_config sample_clock sample_fs "now" 0
            (entry "Big Buck Bunny 1080p" "bunny.nzb" ["2000"; "2040"] 700)
            _ eq_refl _ _ _ eq_refl).
  - discriminate.
  - intros [|[|[|j]]] it' Hj Hid; vm_compute in Hj; try discriminate Hj;
      injection Hj as <-;
      first [reflexivity | vm_compute in Hid; discriminate Hid].
  - discriminate.
Defined.

(** ** What the text filter does not see *)









Lemma text_match_ext (terms1 terms2 : list string) (it : item) :
  (forall t, In t terms1 <-> In t terms2) ->
  text_match terms1 it = text_match terms2 it.
Proof.
  intros Hset.
  destruct (text_match terms1 it) eqn:H1, (text_match terms2 it) eqn:H2;
    try reflexivity.
  - rewrite text_match_spec in H1.
    assert (H : text_match terms2 it = true)
      by (apply text_match_spec; intros t Ht; apply H1, Hset, Ht).
    congruence.
  - rewrite text_match_spec in H2.
    assert (H : text_match terms1 it = true)
      by (apply text_match_spec; intros t Ht; apply H2, Hset, Ht).
    congruence.
Qed.

(** X6.  The order of the query tokens and their repetition do not
    matter: two token lists with the same elements give the same matched
    sequence. *)
Theorem search_terms_as_set (cfg : config) (terms1 terms2 : list string)
    (cat : string) :
  (forall t, In t terms1 <-> In t terms2) ->
  search_results cfg terms1 cat = search_results cfg terms2 cat.
Proof.
  intros Hset. rewrite !search_results_filter.
  apply filter_ext. intros it. rewrite (text_match_ext _ _ it Hset). reflexivity.
Qed.

Lemma search_terms_as_set_witness :
  (forall t, In t (query_terms "bunny big") <-> In t (query_terms "big bunny BIG")) /\
  search_results sample_config (query_terms "bunny big") "2000" =
  search_results sample_config (query_terms "big bunny BIG") "2000".
Proof.
  assert (Hset : forall t, In t (query_terms "bunny big") <->
                           In t (query_terms "big bunny BIG")).
  { intros t. change (query_terms "bunny big") with ["bunny"; "big"].
    change (query_terms "big bunny BIG") with ["big"; "bunny"; "big"].
    simpl. tauto. }
  split; [exact Hset|].
  exact (search_terms_as_set sample_config _ _ "2000" Hset).
Defined.

Lemma filter_narrows {A} (f g : A -> bool) (l : list A) :
  (forall x, f x = true -> g x = true) ->
  List.filter f l `sublist_of` List.filter g l.
Proof.
  intros Himp. induction l as [|x l IH]; simpl; [constructor|].
  destruct (f x) eqn:Hf.
  - rewrite (Himp x Hf). constructor. exact IH.
  - destruct (g x); [constructor|]; exact IH.
Qed.

(** X7.  More tokens never match more: the matched sequence for a token
    list followed by further tokens is a sublist, in order, of the matched
    sequence for the list alone. *)
Theorem search_more_terms_narrows (cfg : config) (terms more : list string)
    (cat : string) :
  search_results cfg (terms ++ more) cat `sublist_of` search_results cfg terms cat.
Proof.
  rewrite !search_results_filter. apply filter_narrows.
  intros it. rewrite !andb_true_iff. intros [Ht Hc]. split; [|exact Hc].
  apply text_match_spec. intros t Hin.
  rewrite text_match_spec in Ht. apply Ht, in_or_app. left. exact Hin.
Qed.

(** ** Pages, for every integer offset and limit *)

Lemma paginate_segment (results : list item) (offset limit : Z) :
  exists i j, paginate results offset limit = firstn j (skipn i results) /\
              (0 <= limit -> Z.of_nat j <= limit).
Proof.
  unfold paginate, Py.slice.
  set (n := Z.of_nat (length results)).
  exists (Z.to_nat (Py.slice_index n offset)),
         (Z.to_nat (Py.slice_index n (offset + limit) - Py.slice_index n offset)).
  split; [reflexivity|].
  intros Hlimit. unfold Py.slice_index.
  assert (Hn : 0 <= n) by (unfold n; lia).
  clearbody n.
  destruct (Z.ltb_spec offset 0), (Z.ltb_spec (offset + limit) 0); lia.
Qed.

Lemma page_segment_sublist (results : list item) (offset limit : Z) :
  paginate results offset limit `sublist_of` results /\
  (length (paginate results offset limit) <= length results)%nat.
Proof.
  destruct (paginate_segment results offset limit) as (i & j & -> & _).
  assert (Hsub : firstn j (skipn i results) `sublist_of` results)
    by (etransitivity; [apply sublist_take | apply sublist_drop]).
  split; [exact Hsub | apply sublist_length, Hsub].
Qed.

(** X8.  Whatever integers the offset and the limit are, the page is a
    sublist of the matched sequence, in order; and when the limit is not
    negative the page has at most [limit] entries, also for a negative
    offset. *)
Theorem page_within_matches (results : list item) (offset limit : Z) :
  paginate results offset limit `sublist_of` results /\
  (0 <= limit -> Z.of_nat (length (paginate results offset limit)) <= limit).
Proof.
  destruct (paginate_segment results offset limit) as (i & j & -> & Hj).
  split.
  - etransitivity; [apply sublist_take | apply sublist_drop].
  - intros Hlimit. specialize (Hj Hlimit).
    rewrite length_take. lia.
Qed.

(** X9.  A negative limit is not refused: from an offset that is not
    negative, the page then runs from the offset up to [-(offset+limit)]
    entries before the end of the matched sequence (limit -1 at offset 0
    gives all matches but the last), and is empty when [offset+limit] is
    not negative. *)
Theorem negative_limit_drops_tail (results : list item) (offset limit : Z) :
  0 <= offset -> limit < 0 ->
  paginate results offset limit =
  if offset + limit <? 0
  then firstn (Z.to_nat (Z.of_nat (length results) + limit))
              (skipn (Z.to_nat offset) results)
  else [].
Proof.
  intros Ho Hl. unfold paginate, Py.slice, Py.slice_index.
  remember (Z.of_nat (length results)) as n eqn:Hn.
  destruct (Z.ltb_spec offset 0) as [?|_]; [lia|].
  destruct (Z.ltb_spec (offset + limit) 0) as [Hneg|Hpos].
  - destruct (Z.le_gt_cases n offset) as [Hbeyond|Hin].
    + rewrite (skipn_all2 results (n := Z.to_nat offset)) by lia.
      rewrite (skipn_all2 results (n := Z.to_nat (Z.min offset n))) by lia.
      rewrite !firstn_nil. reflexivity.
    + rewrite (Z.min_l offset n) by lia. f_equal. lia.
  - replace (Z.to_nat (Z.min (offset + limit) n - Z.min offset n)) with 0%nat by lia.
    reflexivity.
Qed.

Lemma negative_limit_drops_tail_witness :
  0 <= 0 /\ -1 < 0 /\
  int_arg [("limit", "-1")] "limit" 100 = Return (-1) /\
  paginate (matched sample_config [("limit", "-1")]) 0 (-1) =
    [entry "Big Buck Bunny 1080p" "bunny.nzb" ["2000"; "2040"] 700;
     entry "Sintel.2010.WEB" "sintel.nzb" ["2000"] 500] /\
  exists doc,
    handle_search sample_config sample_clock [("limit", "-1")]
      = Return (XmlResponse doc) /\
    length (rendered_items doc) = 2%nat /\ response_total doc = Some "3".
Proof.
  split; [lia|]. split; [lia|]. split; [reflexivity|]. split.
  - rewrite (negative_limit_drops_tail _ 0 (-1)) by lia. reflexivity.
  - eexists. split; [vm_compute; reflexivity|]. split; reflexivity.
Defined.

(** X10.  Consecutive pages fit together: with an offset and limits that
    are not negative, the page of [l1] entries at [offset] followed by the
    page of [l2] entries at [offset + l1] is the page of [l1 + l2] entries
    at [offset]; and the page at offset 0 with a limit of at least the
    number of matches is the whole matched sequence. *)
Theorem consecutive_pages (results : list item) (offset l1 l2 : Z) :
  0 <= offset -> 0 <= l1 -> 0 <= l2 ->
  paginate results offset l1 ++ paginate results (offset + l1) l2 =
    paginate results offset (l1 + l2) /\
  (Z.of_nat (length results) <= l1 -> paginate results 0 l1 = results).
Proof.
  intros Ho H1 H2. unfold paginate.
  rewrite !slice_firstn_skipn by lia.
  split.
  - rewrite (Z2Nat.inj_add offset l1), (Z2Nat.inj_add l1 l2) by lia.
    rewrite <- drop_drop. apply take_take_drop.
  - intros Hall. simpl. apply firstn_all2. lia.
Qed.

Lemma consecutive_pages_witness :
  0 <= 2 /\ 0 <= 3 /\ 0 <= 4 /\
  paginate ten_catalog 2 3 ++ paginate ten_catalog 5 4 = paginate ten_catalog 2 7 /\
  length (paginate ten_catalog 2 7) = 7%nat.
Proof.
  split; [lia|]. split; [lia|]. split; [lia|].
  split; [|reflexivity].
  exact (proj1 (consecutive_pages ten_catalog 2 3 4
                  ltac:(lia) ltac:(lia) ltac:(lia))).
Defined.

(** X11.  Whenever a search answers with a document, for every integer
    offset and limit: its [total] is the number of matches, it holds no
    more items than that, and its items are the renderings, in order, of
    a sublist of the matched sequence. *)
Theorem rendered_within_total (cfg : config) (clock : nat -> string) (a : args)
    (doc : Xml.elem) :
  handle_search cfg clock a = Return (XmlResponse doc) ->
  response_total doc = Some (Py.str (Z.of_nat (length (matched cfg a)))) /\
  (length (rendered_items doc) <= length (matched cfg a))%nat /\
  exists page,
    page `sublist_of` matched cfg a /\
    Forall2 (fun e it => exists t, build_item_xml cfg t it = Return e /\
                                   Xml.tag e = "item")
            (rendered_items doc) page.
Proof.
  unfold handle_search. fold (matched cfg a). unfold_bind.
  destruct (int_arg a "limit" 100) as [limit|]; [|discriminate].
  destruct (int_arg a "offset" 0) as [offset|]; [|discriminate].
  destruct (build_items cfg clock 0 (paginate (matched cfg a) offset limit))
    as [es|] eqn:Hes; [|discriminate].
  intros [= <-].
  pose proof (build_items_spec _ _ _ _ _ Hes) as Hspec.
  assert (Htags : Forall (fun e => Xml.tag e = "item") es).
  { clear -Hspec. induction Hspec as [|e it es page (t & _ & Ht) _ IH];
      constructor; assumption. }
  rewrite rendered_items_search_document by exact Htags.
  destruct (page_segment_sublist (matched cfg a) offset limit) as [Hsub Hlen].
  split; [apply response_total_search_document|]. split.
  - rewrite (Forall2_length _ _ _ Hspec). exact Hlen.
  - exists (paginate (matched cfg a) offset limit). split; [exact Hsub | exact Hspec].
Qed.

Lemma rendered_within_total_witness :
  exists doc,
    handle_search sample_config sample_clock [("q", "sintel"); ("offset", "-1")]
      = Return (XmlResponse doc) /\
    response_total doc = Some "1" /\
    (length (rendered_items doc) <= 1)%nat.
Proof.
  pose (doc := match handle_search sample_config sample_clock
                       [("q", "sintel"); ("offset", "-1")] with
               | Return (XmlResponse d) => d
               | _ => Xml.Elem "" [] [] None []
               end).
  assert (H : handle_search sample_config sample_clock
                [("q", "sintel"); ("offset", "-1")] = Return (XmlResponse doc))
    by (vm_compute; reflexivity).
  exists doc. split; [exact H|].
  destruct (rendered_within_total _ _ _ _ H) as (Htotal & Hlen & _).
  split; [exact Htotal | exact Hlen].
Defined.

(** ** The dispatch as a whole *)









(** X14.  A document that [api] sends is either the [rss] document of a
    search or an [error] element whose [code] is one of 100, 200, 203, 300
    and 900 and which has a [description]. *)
Theorem api_documents (cfg : config) (clock : nat -> string)
    (fs : filesystem) (a : args) (doc : Xml.elem) :
  api cfg clock fs a = Return (XmlResponse doc) ->
  (Xml.tag doc = "rss" /\ is_search_op (default "" (args_get a "t")) = true) \/
  (Xml.tag doc = "error" /\
   (exists code, In code ["100"; "200"; "203"; "300"; "900"] /\
                 Xml.get doc "code" = Some code) /\
   exists message, Xml.get doc "description" = Some message).
Proof.
  unfold api. destruct (verify_api_key cfg a); simpl.
  - fold (is_search_op (default "" (args_get a "t"))).
    destruct (is_search_op (default "" (args_get a "t"))).
    + unfold handle_search. unfold_bind.
      destruct (int_arg a "limit" 100); [|discriminate].
      destruct (int_arg a "offset" 0); [|discriminate].
      destruct (build_items _ _ _ _); [|discriminate].
      intros [= <-]. left. split; reflexivity.
    + destruct (String.eqb _ "get").
      * intros [= Hget]. right.
        destruct (handle_get_total cfg fs a) as [(p & n & Hf)|(code & m & Hcode & He)];
          [congruence|].
        rewrite He in Hget. injection Hget as <-.
        split; [reflexivity|]. split; [|exists m; reflexivity].
        simpl in Hcode. destruct Hcode as [<-|[<-|[<-|[]]]];
          eexists; (split; [|reflexivity]); simpl; auto 10.
      * intros [= <-]. right. split; [reflexivity|].
        split; [exists "203"; simpl; auto 10 | eexists; reflexivity].
  - intros [= <-]. right. split; [reflexivity|].
    split; [exists "100"; simpl; auto 10 | eexists; reflexivity].
Qed.

Lemma api_documents_witness :
  exists doc,
    api sample_config sample_clock sample_fs
        [("apikey", "mock_api_key"); ("t", "get"); ("id", ubuntu_id)]
      = Return (XmlResponse doc) /\
    Xml.tag doc = "error" /\ Xml.get doc "code" = Some "300".
Proof.
  exists (Xml.Elem "error" []
            [("code", "300");
             ("description", "NZB file ubuntu.nzb not found on disk")] None []).
  assert (H : api sample_config sample_clock sample_fs
        [("apikey", "mock_api_key"); ("t", "get"); ("id", ubuntu_id)]
      = Return (XmlResponse (Xml.Elem "error" []
            [("code", "300");
             ("description", "NZB file ubuntu.nzb not found on disk")] None [])))
    by (vm_compute; reflexivity).
  split; [exact H|].
  destruct (api_documents sample_config sample_clock sample_fs _ _ H)
    as [[Hrss _]|(Herr & _ & _)].
  - discriminate Hrss.
  - split; [exact Herr | reflexivity].
Defined.

(** ** The category table *)

Lemma fold_rows_lookup (rows : list (list string)) (m : gmap string string)
    (k : string) :
  fold_left add_category_row rows m !! k =
  match last (omap (row_hit k) rows) with
  | Some v => Some v
  | None => m !! k
  end.
Proof.
  revert m. induction rows as [|row rows IH]; intros m; simpl; [reflexivity|].
  rewrite IH. unfold row_hit at 2, add_category_row.
  destruct row as [|i [|n rest]]; try reflexivity.
  destruct (String.eqb_spec (str_strip i) k) as [->|Hne].
  - rewrite last_cons, lookup_insert_eq.
    destruct (last _); reflexivity.
  - rewrite lookup_insert_ne by exact Hne. reflexivity.
Qed.

(** X15.  In the loaded table the name of an id is taken from the last
    row, after the header, that has at least two fields and whose first
    field, stripped, is that id; it is the second field of that row,
    stripped.  The first row is never data, rows with fewer than two
    fields are skipped, and without the file the table is empty. *)
Theorem load_categories_last_row_wins (header : list string)
    (rows : list (list string)) (k : string) :
  load_categories (CsvRows (header :: rows)) !! k = last (omap (row_hit k) rows) /\
  load_categories (CsvRows [header]) = ∅ /\
  load_categories (CsvRows []) = ∅ /\
  load_categories CsvAbsent = ∅.
Proof.
  split; [|repeat split].
  unfold load_categories. simpl tail. rewrite fold_rows_lookup, lookup_empty.
  destruct (last _); reflexivity.
Qed.

Example load_categories_sample :
  load_categories sample_csv !! "2000" = Some "Films" /\
  load_categories sample_csv !! "2040" = Some "Movies/HD" /\
  load_categories sample_csv !! "4000" = None /\
  load_categories sample_csv !! "id" = None /\
  load_categories sample_csv !! " 2040 " = None.
Proof. vm_compute. repeat split. Qed.

Lemma str_lstrip_head (s : string) :
  str_lstrip s = "" \/
  exists c r, str_lstrip s = String c r /\ Py.isspace c = false.
Proof.
  induction s as [|c s IH]; simpl; [left; reflexivity|].
  destruct (Py.isspace c) eqn:Hc; [exact IH|].
  right. exists c, s. split; [reflexivity | exact Hc].
Qed.

Lemma str_rstrip_idempotent (s : string) :
  str_rstrip (str_rstrip s) = str_rstrip s.
Proof.
  induction s as [|c s IH]; simpl; [reflexivity|].
  destruct (negb (Py.truthy (str_rstrip s)) && Py.isspace c) eqn:Hcut;
    [reflexivity|].
  simpl. rewrite IH, Hcut. reflexivity.
Qed.

Lemma str_strip_idempotent (s : string) : str_strip (str_strip s) = str_strip s.
Proof.
  unfold str_strip.
  destruct (str_lstrip_head s) as [->|(c & r & -> & Hc)]; [reflexivity|].
  simpl str_rstrip at 2 3. rewrite Hc, andb_false_r.
  simpl str_lstrip. rewrite Hc.
  simpl. rewrite str_rstrip_idempotent, Hc, andb_false_r. reflexivity.
Qed.

Lemma load_categories_entry (file : csv_file) (k v : string) :
  load_categories file !! k = Some v ->
  exists i n, k = str_strip i /\ v = str_strip n.
Proof.
  destruct file as [|rows]; simpl; [rewrite lookup_empty; discriminate|].
  rewrite fold_rows_lookup, lookup_empty.
  destruct (last (omap (row_hit k) (tail rows))) as [w|] eqn:Hlast; [|discriminate].
  intros [= ->]. apply last_Some in Hlast. destruct Hlast as (l' & Hl').
  assert (Hin : v ∈ omap (row_hit k) (tail rows))
    by (rewrite Hl'; apply elem_of_app; right; constructor).
  apply list_elem_of_omap in Hin. destruct Hin as (row & _ & Hrow).
  unfold row_hit in Hrow. destruct row as [|i [|n rest]]; try discriminate.
  destruct (String.eqb_spec (str_strip i) k) as [<-|]; [|discriminate].
  injection Hrow as <-. eauto.
Qed.

(** X16.  The table is keyed by stripped ids and holds stripped names.
    An id with white space at either end is therefore in no loaded table:
    the name reported for it is always the fallback "Category " and the
    id, whatever the file says. *)
Theorem padded_id_gets_fallback (cfg : config) (file : csv_file) :
  categories cfg = load_categories file ->
  (forall k v, categories cfg !! k = Some v ->
               str_strip k = k /\ str_strip v = v) /\
  (forall id, str_strip id <> id ->
              get_category_name cfg id = "Category " +:+ id).
Proof.
  intros Hload.
  assert (Hstripped : forall k v, categories cfg !! k = Some v ->
                                  str_strip k = k /\ str_strip v = v).
  { intros k v Hk. rewrite Hload in Hk.
    destruct (load_categories_entry _ _ _ Hk) as (i & n & -> & ->).
    split; apply str_strip_idempotent. }
  split; [exact Hstripped|].
  intros id Hid. unfold get_category_name.
  destruct (categories cfg !! id) as [v|] eqn:Hk; [|reflexivity].
  destruct (Hstripped _ _ Hk) as [Hs _]. contradiction.
Qed.

Lemma padded_id_gets_fallback_witness :
  categories csv_config = load_categories sample_csv /\
  str_strip " 2040 " <> " 2040 " /\
  get_category_name csv_config " 2040 " = "Category  2040 " /\
  get_category_name csv_config "2040" = "Movies/HD".
Proof.
  split; [reflexivity|]. split; [vm_compute; discriminate|].
  split; [|reflexivity].
  apply (proj2 (padded_id_gets_fallback csv_config sample_csv eq_refl)).
  vm_compute. discriminate.
Defined.

(** ** Parents and children in the resolver *)









(** X17.  When no id of the input is a child (each is a multiple of
    1000), nothing is suppressed: every id is named, in order, repeated
    ids as often as they occur. *)
Theorem no_child_nothing_suppressed (cfg : config) (cats : list string) :
  (forall i, In i cats -> exists n, Py.int i = Some n /\ n mod 1000 = 0) ->
  get_named_categories cfg cats = Return (map (get_category_name cfg) cats).
Proof.
  intros Hall.
  assert (Hps : child_parents cats = Return []).
  { induction cats as [|i rest IH]; [reflexivity|]. simpl.
    destruct (Hall i (or_introl eq_refl)) as (n & Hn & Hmod).
    unfold int_of. rewrite Hn. unfold_bind.
    rewrite IH by (intros j Hj; apply Hall; right; exact Hj).
    unfold Py.divmod. simpl snd. rewrite Hmod. reflexivity. }
  rewrite (get_named_categories_of_parents cfg cats [] Hps).
  rewrite filter_all_true; [reflexivity|].
  apply Forall_forall. intros c _. reflexivity.
Qed.

Lemma no_child_nothing_suppressed_witness :
  (forall i, In i ["2000"; "4000"; "2000"] ->
             exists n, Py.int i = Some n /\ n mod 1000 = 0) /\
  get_named_categories sample_config ["2000"; "4000"; "2000"] =
    Return ["Movies"; "PC"; "Movies"].
Proof.
  assert (H : forall i, In i ["2000"; "4000"; "2000"] ->
                        exists n, Py.int i = Some n /\ n mod 1000 = 0).
  { intros i [<-|[<-|[<-|[]]]]; eexists; split; reflexivity. }
  split; [exact H|].
  exact (no_child_nothing_suppressed sample_config _ H).
Defined.





(** ** Where the file is looked for *)




(** ** The webMaster of the channel *)

Lemma startswith_append (p s : string) : Py.startswith p (p +:+ s) = true.
Proof.
  induction p as [|c p IH]; simpl; [reflexivity|].
  rewrite Ascii.eqb_refl. exact IH.
Qed.

Lemma replace_aux_skip (old new t s : string) :
  Py.replace_aux old new (t +:+ s) (String.length t) = Py.replace_aux old new s 0.
Proof.
  induction t as [|c t IH]; simpl; [reflexivity|].
  destruct s; exact IH.
Qed.

Lemma replace_prefix (old new s : string) :
  old <> "" -> Py.replace old new (old +:+ s) = new +:+ Py.replace old new s.
Proof.
  intros Hold. unfold Py.replace.
  apply truthy_true in Hold. rewrite Hold.
  destruct old as [|c o]; [discriminate|].
  change (String c o +:+ s) with (String c (o +:+ s)).
  cbn [Py.replace_aux].
  change (String c (o +:+ s)) with (String c o +:+ s).
  rewrite startswith_append. cbn [String.length Nat.pred].
  rewrite replace_aux_skip. reflexivity.
Qed.

Lemma replace_absent (old new s : string) :
  old <> "" -> Py.contains old s = false -> Py.replace old new s = s.
Proof.
  intros Hold. unfold Py.replace. apply truthy_true in Hold. rewrite Hold.
  induction s as [|c s IH]; [reflexivity|].
  cbn [Py.contains Py.replace_aux]. intros Hno.
  apply orb_false_iff in Hno. destruct Hno as [-> Hno].
  rewrite IH by exact Hno. reflexivity.
Qed.

(** X21.  When the external url is "http://" or "https://" followed by a
    host in which neither of the two occurs again, the [webMaster] of the
    search document is "admin@" followed by that host. *)
Theorem webmaster_is_admin_at_host (cfg : config) (offset : Z)
    (results : list item) (items : list Xml.elem) (scheme host : string) :
  scheme = "http://" \/ scheme = "https://" ->
  external_url cfg = scheme +:+ host ->
  Py.contains "http://" host = false ->
  Py.contains "https://" host = false ->
  (channel ← Xml.find (search_document cfg offset results items) "channel";
   child_text channel "webMaster") = Some ("admin@" +:+ host).
Proof.
  intros Hscheme Hurl Hhttp Hhttps.
  assert (Hstrip : Py.replace "https://" ""
                     (Py.replace "http://" "" (external_url cfg)) = host).
  { rewrite Hurl. destruct Hscheme as [-> | ->].
    - rewrite replace_prefix by discriminate.
      rewrite (replace_absent "http://") by (discriminate || exact Hhttp).
      apply replace_absent; [discriminate | exact Hhttps].
    - rewrite (replace_absent "http://") by (discriminate || exact Hhttp).
      rewrite replace_prefix by discriminate.
      apply replace_absent; [discriminate | exact Hhttps]. }
  transitivity (Some ("admin@" +:+ Py.replace "https://" ""
                        (Py.replace "http://" "" (external_url cfg))));
    [reflexivity | rewrite Hstrip; reflexivity].
Qed.

Lemma webmaster_is_admin_at_host_witness :
  external_url sample_config = "http://" +:+ "localhost:5000" /\
  Py.contains "http://" "localhost:5000" = false /\
  Py.contains "https://" "localhost:5000" = false /\
  (channel ← Xml.find (search_document sample_config 0 [] []) "channel";
   child_text channel "webMaster") = Some "admin@localhost:5000".
Proof.
  split; [reflexivity|]. split; [reflexivity|]. split; [reflexivity|].
  exact (webmaster_is_admin_at_host sample_config 0 [] [] "http://"
           "localhost:5000" (or_introl eq_refl) eq_refl eq_refl eq_refl).
Defined.
